(** * Google Sheets MCP bridge: credential store and protocol dispatcher

    A shallow embedding of [tokens.py] (the on-disk credential store) and
    [main.py] (OAuth callback, Sheets helpers and the [/mcp] JSON-RPC
    handler), followed by the properties of the specification.

    Conventions.
    - Python values that travel through the program are JSON values
      ([pyval]).  An [int] is a [Z]; a [float] is given by its sign,
      mantissa and binary exponent, or is infinite or not a number, as
      [json.loads] produces them for [1e999], [Infinity] and [NaN].
    - A Python [str] is a Rocq [string] holding the UTF-8 encoding of the
      text, a lone surrogate (which [json.loads] produces for an escape such
      as [\ud800]) being written as the three bytes that UTF-8 would give
      it; the str can be encoded as UTF-8 exactly when these bytes are
      strict UTF-8 ([valid_utf8]).  A file holds raw bytes, also a
      [string].
    - A Python [dict] is an insertion-ordered association list with string
      keys (every dict of the program comes from JSON or from a literal).
    - Python exceptions are values of [exn]; a computation returns
      [res A], either [Ret a] or [Raise e].
    - The libraries the program calls but does not define ([json], the
      OAuth flow, the Sheets client) are fields of an [env] record. *)

From stdpp Require Import gmap strings list fin_maps pretty.
From Stdlib Require Import ZArith Ascii String Lia.

Open Scope string_scope.
Open Scope Z_scope.

(** ** Python values *)

#[local] Set Warnings "-register-all".


(** A float: not a number, infinite, or [(-1)^negative * m * 2^e]. *)
Inductive pyfloat : Type :=
| F_nan
| F_inf (negative : bool)
| F_num (negative : bool) (m : N) (e : Z).

Inductive pyval : Type :=
| PNone
| PBool (b : bool)
| PInt (z : Z)
| PFloat (f : pyfloat)
| PStr (s : string)
| PList (l : list pyval)
| PDict (d : list (string * pyval)).

Abbreviation pydict := (list (string * pyval)).

Inductive exn : Type :=
| KeyError (key : pyval)
| TypeError
| AttributeError
| IndexError
| UnicodeDecodeError
| UnicodeEncodeError
| ValueError
| JSONDecodeError
| FileExistsError
| LibraryError (what : string).

Inductive res (A : Type) : Type :=
| Ret (a : A)
| Raise (e : exn).
Arguments Ret {A} a.
Arguments Raise {A} e.

Definition res_bind {A B} (r : res A) (k : A -> res B) : res B :=
  match r with
  | Ret a => k a
  | Raise e => Raise e
  end.

(** ** Dictionaries *)

(** [d.get(k)] on a dict: the value of the first entry with key [k]. *)
Fixpoint dict_get (d : pydict) (k : string) : option pyval :=
  match d with
  | [] => None
  | (k', v) :: d' => if String.eqb k k' then Some v else dict_get d' k
  end.

(** [d[k] = v]: an existing key keeps its position, a new key is appended. *)
Fixpoint dict_set (d : pydict) (k : string) (v : pyval) : pydict :=
  match d with
  | [] => [(k, v)]
  | (k', v') :: d' =>
      if String.eqb k k' then (k', v) :: d' else (k', v') :: dict_set d' k v
  end.

(** ** Python operators on JSON values *)

(** The integer mantissa of a float with its sign. *)
Definition signed (negative : bool) (m : N) : Z :=
  if negative then - Z.of_N m else Z.of_N m.

(** [f == z] for a float and an int: the comparison is exact. *)
Definition float_eq_int (f : pyfloat) (z : Z) : bool :=
  match f with
  | F_num s m e =>
      if 0 <=? e then Z.eqb z (signed s m * 2 ^ e)
      else Z.eqb (z * 2 ^ (- e)) (signed s m)
  | _ => false
  end.

(** [f == g] for two floats: [nan] equals nothing, the two zeros are
    equal. *)
Definition float_eq (f g : pyfloat) : bool :=
  match f, g with
  | F_inf s, F_inf s' => Bool.eqb s s'
  | F_num s m e, F_num s' m' e' =>
      if e <=? e' then Z.eqb (signed s m) (signed s' m' * 2 ^ (e' - e))
      else Z.eqb (signed s m * 2 ^ (e - e')) (signed s' m')
  | _, _ => false
  end.

(** [a == b].  [bool] is a subclass of [int], so [True == 1]; lists compare
    element-wise and dicts compare as mappings. *)
Fixpoint py_eq (a b : pyval) {struct a} : bool :=
  match a, b with
  | PNone, PNone => true
  | PBool x, PBool y => Bool.eqb x y
  | PBool x, PInt z => Z.eqb (if x then 1 else 0) z
  | PInt z, PBool y => Z.eqb z (if y then 1 else 0)
  | PInt x, PInt y => Z.eqb x y
  | PFloat f, PFloat g => float_eq f g
  | PFloat f, PInt z => float_eq_int f z
  | PInt z, PFloat f => float_eq_int f z
  | PFloat f, PBool y => float_eq_int f (if y then 1 else 0)
  | PBool x, PFloat f => float_eq_int f (if x then 1 else 0)
  | PStr x, PStr y => String.eqb x y
  | PList xs, PList ys =>
      (fix go (xs ys : list pyval) {struct xs} : bool :=
         match xs, ys with
         | [], [] => true
         | x :: xs', y :: ys' => py_eq x y && go xs' ys'
         | _, _ => false
         end) xs ys
  | PDict xs, PDict ys =>
      Nat.eqb (List.length xs) (List.length ys) &&
      (fix go (xs : pydict) {struct xs} : bool :=
         match xs with
         | [] => true
         | (k, v) :: xs' =>
             match dict_get ys k with
             | Some v' => py_eq v v'
             | None => false
             end && go xs'
         end) xs
  | _, _ => false
  end.

(** [bool(v)]. *)
Definition truthy (v : pyval) : bool :=
  match v with
  | PNone => false
  | PBool b => b
  | PInt z => negb (Z.eqb z 0)
  | PFloat f => match f with F_num _ 0%N _ => false | _ => true end
  | PStr s => negb (String.eqb s "")
  | PList l => match l with [] => false | _ => true end
  | PDict d => match d with [] => false | _ => true end
  end.

(** [a or b]. *)
Definition py_or (a b : pyval) : pyval := if truthy a then a else b.

(** Lists and dicts are unhashable. *)
Definition hashable (v : pyval) : bool :=
  match v with
  | PList _ | PDict _ => false
  | _ => true
  end.

(** [needle in haystack] for two strs. *)
Fixpoint prefixb (p s : string) : bool :=
  match p, s with
  | EmptyString, _ => true
  | String a p', String b s' => Ascii.eqb a b && prefixb p' s'
  | String _ _, EmptyString => false
  end.

Fixpoint substringb (p s : string) : bool :=
  prefixb p s ||
  match s with
  | EmptyString => false
  | String _ s' => substringb p s'
  end.

(** [x in c]. *)
Definition py_in (x c : pyval) : res bool :=
  match c with
  | PDict d =>
      if hashable x then
        Ret match x with
            | PStr k => match dict_get d k with Some _ => true | None => false end
            | _ => false
            end
      else Raise TypeError
  | PList l => Ret (existsb (py_eq x) l)
  | PStr s =>
      match x with
      | PStr p => Ret (substringb p s)
      | _ => Raise TypeError
      end
  | _ => Raise TypeError
  end.

(** [v.get(k, default)]: only dicts have a [get] method. *)
Definition py_get (v : pyval) (k : string) (default : pyval) : res pyval :=
  match v with
  | PDict d => Ret (match dict_get d k with Some x => x | None => default end)
  | _ => Raise AttributeError
  end.

(** [l[i]] on a list: negative indices count from the end. *)
Definition list_index {A} (l : list A) (i : Z) : res A :=
  let n := Z.of_nat (List.length l) in
  let j := if i <? 0 then i + n else i in
  if (0 <=? j) && (j <? n) then
    match nth_error l (Z.to_nat j) with
    | Some v => Ret v
    | None => Raise IndexError
    end
  else Raise IndexError.

(** An [int] (or [bool]) usable as a sequence index. *)
Definition as_index (k : pyval) : option Z :=
  match k with
  | PInt z => Some z
  | PBool b => Some (if b then 1 else 0)
  | _ => None
  end.

(** *** UTF-8 *)

Definition byte_val (c : ascii) : Z := Z.of_N (N_of_ascii c).

Definition byte_in (lo hi : Z) (c : ascii) : bool :=
  (lo <=? byte_val c) && (byte_val c <=? hi).

(** Continuation bytes are [10xxxxxx]. *)
Definition is_cont (c : ascii) : bool := byte_in 128 191 c.

(** The code points of a str: every lead byte with the continuation bytes
    that follow it.  The first component collects continuation bytes met
    before any lead byte (empty for well-formed text). *)
Fixpoint utf8_split (s : string) : string * list string :=
  match s with
  | EmptyString => (EmptyString, [])
  | String c s' =>
      let '(k, cs) := utf8_split s' in
      if is_cont c then (String c k, cs) else (EmptyString, String c k :: cs)
  end.

Definition utf8_chars (s : string) : list string := snd (utf8_split s).

(** States of the strict UTF-8 decoder: [U0] between code points; [U1],
    [U2], [U3] with that many continuation bytes due; the others after a
    lead byte that restricts the range of the next byte (no overlong
    forms, no surrogates, nothing above U+10FFFF). *)
Inductive utf8_state : Type := U0 | U1 | U2 | U3 | UE0 | UED | UF0 | UF4.

Definition utf8_step (st : utf8_state) (c : ascii) : option utf8_state :=
  match st with
  | U0 =>
      if byte_in 0 127 c then Some U0
      else if byte_in 194 223 c then Some U1
      else if byte_in 224 224 c then Some UE0
      else if byte_in 225 236 c || byte_in 238 239 c then Some U2
      else if byte_in 237 237 c then Some UED
      else if byte_in 240 240 c then Some UF0
      else if byte_in 241 243 c then Some U3
      else if byte_in 244 244 c then Some UF4
      else None
  | U1 => if byte_in 128 191 c then Some U0 else None
  | U2 => if byte_in 128 191 c then Some U1 else None
  | U3 => if byte_in 128 191 c then Some U2 else None
  | UE0 => if byte_in 160 191 c then Some U1 else None
  | UED => if byte_in 128 159 c then Some U1 else None
  | UF0 => if byte_in 144 191 c then Some U2 else None
  | UF4 => if byte_in 128 143 c then Some U2 else None
  end.

Fixpoint utf8_run (st : utf8_state) (s : string) : bool :=
  match s with
  | EmptyString => match st with U0 => true | _ => false end
  | String c s' =>
      match utf8_step st c with
      | Some st' => utf8_run st' s'
      | None => false
      end
  end.

Definition valid_utf8 (s : string) : bool := utf8_run U0 s.

(** Text mode with the default [newline=None]: ["\r\n"] and ["\r"] are read
    as ["\n"]. *)
Fixpoint universal_newlines (s : string) : string :=
  match s with
  | EmptyString => EmptyString
  | String c s' =>
      if Ascii.eqb c "013" then
        match s' with
        | String c' s'' =>
            if Ascii.eqb c' "010" then String "010" (universal_newlines s'')
            else String "010" (universal_newlines s')
        | EmptyString => String "010" EmptyString
        end
      else String c (universal_newlines s')
  end.

(** [c[k]]. *)
Definition py_getitem (c k : pyval) : res pyval :=
  match c with
  | PDict d =>
      if hashable k then
        match k with
        | PStr s =>
            match dict_get d s with
            | Some v => Ret v
            | None => Raise (KeyError k)
            end
        | _ => Raise (KeyError k)
        end
      else Raise TypeError
  | PList l =>
      match as_index k with
      | Some i => list_index l i
      | None => Raise TypeError
      end
  | PStr s =>
      match as_index k with
      | Some i => res_bind (list_index (utf8_chars s) i) (fun ch => Ret (PStr ch))
      | None => Raise TypeError
      end
  | _ => Raise TypeError
  end.

(** ** The collaborators *)

(** [flow.credentials] after [fetch_token]. *)
Record oauth_credentials : Type := {
  token : pyval;
  refresh_token : pyval
}.

(** The arguments of [Flow.from_client_config]. *)
Record oauth_flow : Type := {
  flow_client_id : option string;
  flow_client_secret : option string;
  flow_auth_uri : string;
  flow_token_uri : string;
  flow_redirect_uris : list string;
  flow_scopes : list string;
  flow_redirect_uri : string
}.

(** The arguments of [google.oauth2.credentials.Credentials]. *)
Record Credentials : Type := {
  creds_token : pyval;
  creds_refresh_token : pyval;
  creds_token_uri : string;
  creds_client_id : option string;
  creds_client_secret : option string;
  creds_scopes : list string
}.

(** A request built on [service.spreadsheets().values()] and executed. *)
Inductive remote_call : Type :=
| values_get (service : Credentials) (spreadsheetId range : pyval)
| values_update (service : Credentials) (spreadsheetId range : pyval)
    (valueInputOption : string) (body : pyval)
| values_append (service : Credentials) (spreadsheetId range : pyval)
    (valueInputOption insertDataOption : string) (body : pyval).

Record env : Type := {
  (** [os.environ.get(...)] at import time *)
  GOOGLE_CLIENT_ID : option string;
  GOOGLE_CLIENT_SECRET : option string;
  BASE_URL : option string;
  (** [json.loads] *)
  json_loads : string -> res pyval;
  (** the text that [json.dump(obj, fp, indent=2, ensure_ascii=False)]
      writes to [fp] *)
  json_dumps : pyval -> string;
  (** the exception that ends that [json.dump] early, if it does not
      complete (a str that the UTF-8 file cannot encode, an object that the
      encoder refuses); what [json_dumps] gives is then the text written
      before the exception *)
  json_dump_raises : pyval -> option exn;
  (** [repr], which [str()] and f-strings use for a value that is no str *)
  py_repr : pyval -> string;
  (** [Flow.from_client_config(...)] with the configuration given, then
      [flow.fetch_token(authorization_response=url)] and [flow.credentials] *)
  fetch_token : oauth_flow -> string -> res oauth_credentials;
  (** [build("sheets", "v4", credentials=creds)] *)
  build : Credentials -> res unit;
  (** [.execute()] of a Sheets request *)
  execute : remote_call -> res pyval
}.

(** ** The world: files, temporary names, remote requests *)

(** [files] is the directory of [TOKEN_FILE] (the working directory), from
    file name to content.  [tmp_names] are the random suffixes that
    [tempfile] will draw, in order, for the attempts it is allowed.
    [remote_log] records the Sheets requests executed so far, oldest first. *)
Record world : Type := {
  files : gmap string string;
  tmp_names : list string;
  remote_log : list remote_call
}.

Definition set_files (fs : gmap string string) (w : world) : world :=
  {| files := fs; tmp_names := tmp_names w; remote_log := remote_log w |}.

Definition set_tmp_names (ns : list string) (w : world) : world :=
  {| files := files w; tmp_names := ns; remote_log := remote_log w |}.

Definition log_call (c : remote_call) (w : world) : world :=
  {| files := files w; tmp_names := tmp_names w;
     remote_log := remote_log w ++ [c] |}.

(** A computation that reads and writes the world and may raise; what it
    did before raising stays done. *)
Definition M (A : Type) : Type := world -> res A * world.

Definition M_ret {A} (a : A) : M A := fun w => (Ret a, w).

Definition M_bind {A B} (c : M A) (k : A -> M B) : M B :=
  fun w =>
    match c w with
    | (Ret a, w') => k a w'
    | (Raise e, w') => (Raise e, w')
    end.

Definition M_lift {A} (r : res A) : M A := fun w => (r, w).

Notation "'let*' x ':=' c 'in' k" := (M_bind c (fun x => k))
  (at level 10, x name, c at level 100, k at level 200).

(** ** tokens.py *)

Definition TOKEN_FILE : string := "tokens.json".

(** [TOKEN_FILE.read_text(encoding="utf-8")]. *)
Definition read_text (bytes : string) : res string :=
  if valid_utf8 bytes then Ret (universal_newlines bytes)
  else Raise UnicodeDecodeError.

Definition load_tokens (E : env) (fs : gmap string string) : res pyval :=
  match fs !! TOKEN_FILE with
  | None => Ret (PDict [])
  | Some bytes =>
      match res_bind (read_text bytes) (json_loads E) with
      | Raise JSONDecodeError => Ret (PDict [])
      | r => r
      end
  end.

(** [load_tokens()] against the files of the current world. *)
Definition M_load_tokens (E : env) : M pyval :=
  fun w => (load_tokens E (files w), w).

(** The steps of a save that reach the disk, one byte at a time, so that
    a prefix of the steps is the save cut off at that point, wherever the
    buffered writes of [json.dump] happen to be flushed. *)
Inductive fs_op : Type :=
| Create (name : string)
| Append (name : string) (c : ascii)
| Rename (src dst : string).

Definition fs_step (fs : gmap string string) (op : fs_op) : gmap string string :=
  match op with
  | Create n => <[n := EmptyString]> fs
  | Append n c =>
      match fs !! n with
      | Some s => <[n := s ++ String c EmptyString]> fs
      | None => fs
      end
  | Rename a b =>
      match fs !! a with
      | Some s => <[b := s]> (delete a fs)
      | None => fs
      end
  end.

Definition fs_run (ops : list fs_op) (fs : gmap string string) : gmap string string :=
  fold_left fs_step ops fs.

(** [NamedTemporaryFile(dir=TOKEN_FILE.parent, delete=False)]: the name is
    ["tmp"] followed by a random suffix, and the file is opened with
    [O_EXCL], so a name that exists is skipped and the next one is tried.
    Returns the name chosen, if any, and the suffixes not yet drawn. *)
Fixpoint mkstemp (names : list string) (fs : gmap string string)
  : option string * list string :=
  match names with
  | [] => (None, [])
  | n :: names' =>
      match fs !! ("tmp" ++ n) with
      | None => (Some ("tmp" ++ n), names')
      | Some _ => mkstemp names' fs
      end
  end.

(** What the [with] block of [save_tokens] does to the disk: it creates the
    temporary file and writes what [json.dump] writes. *)
Definition fill_script (E : env) (tmp : string) (tokens : pyval) : list fs_op :=
  Create tmp :: map (Append tmp) (list_ascii_of_string (json_dumps E tokens)).

(** What [save_tokens] does to the disk once the temporary name is known:
    the [with] block creates the file and writes the serialized mapping,
    then [Path(temp_name).replace(TOKEN_FILE)] renames it. *)
Definition save_script (E : env) (tmp : string) (tokens : pyval) : list fs_op :=
  Create tmp
  :: map (Append tmp) (list_ascii_of_string (json_dumps E tokens))
  ++ [Rename tmp TOKEN_FILE].

(** [TOKEN_FILE.parent] is the working directory, which exists: the
    [mkdir(parents=True, exist_ok=True)] changes nothing.  An exception of
    [json.dump] leaves the [with] block, which closes the temporary file
    with what was written, and the rename is not reached. *)
Definition save_tokens (E : env) (tokens : pyval) : M unit :=
  fun w =>
    match mkstemp (tmp_names w) (files w) with
    | (Some tmp, rest) =>
        match json_dump_raises E tokens with
        | None =>
            (Ret tt,
             set_files (fs_run (save_script E tmp tokens) (files w))
               (set_tmp_names rest w))
        | Some e =>
            (Raise e,
             set_files (fs_run (fill_script E tmp tokens) (files w))
               (set_tmp_names rest w))
        end
    | (None, rest) => (Raise FileExistsError, set_tmp_names rest w)
    end.

(** ** main.py: configuration and helpers *)

Definition SCOPES : list string :=
  ["https://www.googleapis.com/auth/spreadsheets"].

(** [str(x)] as an f-string inserts it, for a configuration value. *)
Definition str_of_config (x : option string) : string :=
  match x with
  | Some s => s
  | None => "None"
  end.

(** [str(v)] as an f-string inserts it: a str is inserted as it is. *)
Definition py_str (E : env) (v : pyval) : string :=
  match v with
  | PStr s => s
  | _ => py_repr E v
  end.

Definition REDIRECT_URI (E : env) : string :=
  str_of_config (BASE_URL E) ++ "/auth/google/callback".

Definition get_oauth_flow (E : env) : oauth_flow :=
  {| flow_client_id := GOOGLE_CLIENT_ID E;
     flow_client_secret := GOOGLE_CLIENT_SECRET E;
     flow_auth_uri := "https://accounts.google.com/o/oauth2/auth";
     flow_token_uri := "https://oauth2.googleapis.com/token";
     flow_redirect_uris := [REDIRECT_URI E];
     flow_scopes := SCOPES;
     flow_redirect_uri := REDIRECT_URI E |}.

Definition get_user_id (payload : pyval) : res pyval :=
  res_bind (py_get payload "meta" (PDict []))
    (fun meta => py_get meta "user_id" (PStr "default")).

(** The URL that [auth_error] tells the user to visit. *)
Definition recovery_url (E : env) (user_id : pyval) : string :=
  str_of_config (BASE_URL E) ++ "/auth/google?user_id=" ++ py_str E user_id.

Definition auth_error (E : env) (id_ user_id : pyval) : pyval :=
  PDict
    [("jsonrpc", PStr "2.0");
     ("id", id_);
     ("error",
      PDict
        [("code", PInt 401);
         ("message",
          PStr ("Google Sheets not connected for user '" ++ py_str E user_id
                ++ "'. Visit " ++ recovery_url E user_id))])].

(** ** main.py: the OAuth callback *)

(** [tokens[k] = v] for a str key. *)
Definition py_setitem (c : pyval) (k : string) (v : pyval) : res pyval :=
  match c with
  | PDict d => Ret (PDict (dict_set d k v))
  | _ => Raise TypeError
  end.

(** [request.query_params.get("state", "default")]. *)
Definition state_user (state : option string) : string :=
  match state with
  | Some s => s
  | None => "default"
  end.

(** [url] is [str(request.url)] and [state] the [state] query parameter,
    when the request has one. *)
Definition google_callback (E : env) (url : string) (state : option string)
  : M pyval :=
  let flow := get_oauth_flow E in
  let* credentials := M_lift (fetch_token E flow url) in
  let user_id := state_user state in
  let* tokens := M_load_tokens E in
  let* record := M_lift (py_get tokens user_id (PDict [])) in
  let* existing_refresh := M_lift (py_get record "refresh_token" PNone) in
  let* tokens := M_lift (py_setitem tokens user_id
      (PDict [("token", token credentials);
              ("refresh_token",
               py_or (refresh_token credentials) existing_refresh)])) in
  let* _ := save_tokens E tokens in
  M_ret (PDict [("status", PStr "sheets connected successfully");
               ("user", PStr user_id)]).

(** ** main.py: the Sheets helpers *)

(** The service object is the client bound to the credentials it was built
    from; it is never falsy. *)
Definition get_sheets_service (E : env) (user_id : pyval)
  : M (option Credentials) :=
  let* tokens := M_load_tokens E in
  let* present := M_lift (py_in user_id tokens) in
  if negb present then M_ret None
  else
    let* rec_t := M_lift (py_getitem tokens user_id) in
    let* tok := M_lift (py_getitem rec_t (PStr "token")) in
    let* rec_r := M_lift (py_getitem tokens user_id) in
    let* rtok := M_lift (py_getitem rec_r (PStr "refresh_token")) in
    let creds :=
      {| creds_token := tok;
         creds_refresh_token := rtok;
         creds_token_uri := "https://oauth2.googleapis.com/token";
         creds_client_id := GOOGLE_CLIENT_ID E;
         creds_client_secret := GOOGLE_CLIENT_SECRET E;
         creds_scopes := SCOPES |} in
    let* _ := M_lift (build E creds) in
    M_ret (Some creds).

(** Build a Sheets request, run it, and keep a record of it. *)
Definition run_remote (E : env) (c : remote_call) : M pyval :=
  fun w => (execute E c, log_call c w).

Definition sheets_read_range (E : env) (user_id spreadsheet_id range_ : pyval)
  : M pyval :=
  let* service := get_sheets_service E user_id in
  match service with
  | None => M_ret (PStr "AUTH_REQUIRED")
  | Some service =>
      let* result := run_remote E (values_get service spreadsheet_id range_) in
      M_lift (py_get result "values" (PList []))
  end.

Definition sheets_write_range (E : env)
  (user_id spreadsheet_id range_ values : pyval) : M pyval :=
  let* service := get_sheets_service E user_id in
  match service with
  | None => M_ret (PStr "AUTH_REQUIRED")
  | Some service =>
      let body := PDict [("values", values)] in
      let* _ := run_remote E
                  (values_update service spreadsheet_id range_ "RAW" body) in
      M_ret (PStr "UPDATED")
  end.

Definition sheets_append_row (E : env)
  (user_id spreadsheet_id range_ values : pyval) : M pyval :=
  let* service := get_sheets_service E user_id in
  match service with
  | None => M_ret (PStr "AUTH_REQUIRED")
  | Some service =>
      let body := PDict [("values", PList [values])] in
      let* _ := run_remote E
                  (values_append service spreadsheet_id range_ "RAW"
                     "INSERT_ROWS" body) in
      M_ret (PStr "APPENDED")
  end.

(** ** main.py: the MCP endpoint *)

(** What the handler hands to the framework: a dict is sent with status
    200, a [JSONResponse] with its own status code. *)
Record response : Type := {
  status_code : Z;
  content : pyval
}.

Definition ok (body : pyval) : response :=
  {| status_code := 200; content := body |}.

(** [json.dumps(..., allow_nan=False)] refuses a float that is infinite
    or not a number. *)
Definition finite_float (f : pyfloat) : bool :=
  match f with
  | F_num _ _ _ => true
  | _ => false
  end.

Fixpoint json_compliant (v : pyval) : bool :=
  match v with
  | PFloat f => finite_float f
  | PList l => forallb json_compliant l
  | PDict d => forallb (fun kv => json_compliant (snd kv)) d
  | _ => true
  end.

(** [.encode("utf-8")] refuses a str with a lone surrogate. *)
Fixpoint encodable (v : pyval) : bool :=
  match v with
  | PStr s => valid_utf8 s
  | PList l => forallb encodable l
  | PDict d => forallb (fun kv => valid_utf8 (fst kv) && encodable (snd kv)) d
  | _ => true
  end.

(** [JSONResponse(status_code=..., content=...)] renders its content when
    it is built: [json.dumps(content, ensure_ascii=False, allow_nan=False,
    ...)], which raises [ValueError], and then [.encode("utf-8")], which
    raises [UnicodeEncodeError]. *)
Definition JSONResponse (status : Z) (body : pyval) : res response :=
  if negb (json_compliant body) then Raise ValueError
  else if negb (encodable body) then Raise UnicodeEncodeError
  else Ret {| status_code := status; content := body |}.

Definition string_type : pyval := PDict [("type", PStr "string")].

Definition tools_catalog : pyval :=
  PList
    [PDict
       [("name", PStr "sheets.read_range");
        ("description", PStr "Read values from a Google Sheet range");
        ("inputSchema",
         PDict
           [("type", PStr "object");
            ("properties",
             PDict [("spreadsheet_id", string_type); ("range", string_type)]);
            ("required", PList [PStr "spreadsheet_id"; PStr "range"])])];
     PDict
       [("name", PStr "sheets.write_range");
        ("description", PStr "Write values to a Google Sheet range");
        ("inputSchema",
         PDict
           [("type", PStr "object");
            ("properties",
             PDict
               [("spreadsheet_id", string_type);
                ("range", string_type);
                ("values",
                 PDict
                   [("type", PStr "array");
                    ("items",
                     PDict [("type", PStr "array"); ("items", string_type)])])]);
            ("required",
             PList [PStr "spreadsheet_id"; PStr "range"; PStr "values"])])];
     PDict
       [("name", PStr "sheets.append_row");
        ("description", PStr "Append a new row to a Google Sheet");
        ("inputSchema",
         PDict
           [("type", PStr "object");
            ("properties",
             PDict
               [("spreadsheet_id", string_type);
                ("range", string_type);
                ("values",
                 PDict [("type", PStr "array"); ("items", string_type)])]);
            ("required",
             PList [PStr "spreadsheet_id"; PStr "range"; PStr "values"])])]].

Definition result_envelope (id_ result : pyval) : pyval :=
  PDict [("jsonrpc", PStr "2.0"); ("id", id_); ("result", result)].

Definition text_content (text : string) : pyval :=
  PDict [("content", PList [PDict [("type", PStr "text"); ("text", PStr text)]])].

(** The content of the catch-all. *)
Definition not_found_content (id_ : pyval) : pyval :=
  PDict
    [("jsonrpc", PStr "2.0");
     ("id", id_);
     ("error",
      PDict [("code", PInt (-32601)); ("message", PStr "Method not found")])].

(** The catch-all, once it is rendered. *)
Definition method_not_found (id_ : pyval) : response :=
  {| status_code := 400; content := not_found_content id_ |}.

(** The [tools/call] branch.  [None] means that no tool name matched and
    control leaves the [if method == "tools/call"] block. *)
Definition tools_call (E : env) (payload id_ user_id : pyval)
  : M (option response) :=
  let* params := M_lift (py_getitem payload (PStr "params")) in
  let* tool := M_lift (py_getitem params (PStr "name")) in
  let* params' := M_lift (py_getitem payload (PStr "params")) in
  let* args := M_lift (py_get params' "arguments" (PDict [])) in
  if py_eq tool (PStr "sheets.read_range") then
    let* spreadsheet_id := M_lift (py_getitem args (PStr "spreadsheet_id")) in
    let* range_ := M_lift (py_getitem args (PStr "range")) in
    let* res := sheets_read_range E user_id spreadsheet_id range_ in
    if py_eq res (PStr "AUTH_REQUIRED") then
      M_ret (Some (ok (auth_error E id_ user_id)))
    else
      M_ret (Some (ok (result_envelope id_
        (PDict [("content",
                 PList [PDict [("type", PStr "json"); ("json", res)]])]))))
  else if py_eq tool (PStr "sheets.write_range") then
    let* spreadsheet_id := M_lift (py_getitem args (PStr "spreadsheet_id")) in
    let* range_ := M_lift (py_getitem args (PStr "range")) in
    let* values := M_lift (py_getitem args (PStr "values")) in
    let* res := sheets_write_range E user_id spreadsheet_id range_ values in
    if py_eq res (PStr "AUTH_REQUIRED") then
      M_ret (Some (ok (auth_error E id_ user_id)))
    else
      M_ret (Some (ok (result_envelope id_ (text_content "✅ Sheet updated"))))
  else if py_eq tool (PStr "sheets.append_row") then
    let* spreadsheet_id := M_lift (py_getitem args (PStr "spreadsheet_id")) in
    let* range_ := M_lift (py_getitem args (PStr "range")) in
    let* values := M_lift (py_getitem args (PStr "values")) in
    let* res := sheets_append_row E user_id spreadsheet_id range_ values in
    if py_eq res (PStr "AUTH_REQUIRED") then
      M_ret (Some (ok (auth_error E id_ user_id)))
    else
      M_ret (Some (ok (result_envelope id_ (text_content "➕ Row appended"))))
  else M_ret None.

(** [payload] is the value of [await request.json()]. *)
Definition mcp_handler (E : env) (payload : pyval) : M response :=
  let* method := M_lift (py_get payload "method" PNone) in
  let* id_ := M_lift (py_get payload "id" PNone) in
  let* user_id := M_lift (get_user_id payload) in
  if py_eq method (PStr "initialize") then
    M_ret (ok (result_envelope id_
      (PDict
         [("serverInfo",
           PDict [("name", PStr "Multi-User Google Sheets MCP");
                  ("version", PStr "0.1.0")])])))
  else if py_eq method (PStr "tools/list") then
    M_ret (ok (result_envelope id_ (PDict [("tools", tools_catalog)])))
  else if py_eq method (PStr "tools/call") then
    let* r := tools_call E payload id_ user_id in
    match r with
    | Some resp => M_ret resp
    | None => M_lift (JSONResponse 400 (not_found_content id_))
    end
  else M_lift (JSONResponse 400 (not_found_content id_)).

(** [GET /]. *)
Definition health : pyval := PDict [("status", PStr "Sheets MCP running")].

(** ** Reading a response *)

(** [v[k]] when [v] is a dict that has the key. *)
Definition field (v : pyval) (k : string) : option pyval :=
  match v with
  | PDict d => dict_get d k
  | _ => None
  end.

Definition error_code (r : response) : option pyval :=
  match field (content r) "error" with
  | Some e => field e "code"
  | None => None
  end.

Definition error_message (r : response) : option pyval :=
  match field (content r) "error" with
  | Some e => field e "message"
  | None => None
  end.

(** ** Requests *)

(** The envelope of a request: a JSON object whose [meta] member, when it
    has one, is a JSON object. *)
Definition rpc_request (payload : pyval) : bool :=
  match payload with
  | PDict d =>
      match dict_get d "meta" with
      | None | Some (PDict _) => true
      | Some _ => false
      end
  | _ => false
  end.

(** The three capabilities and the arguments that [tools/list] declares as
    required, in the order in which [tools/call] reads them. *)
Definition required_args (tool : string) : option (list string) :=
  if String.eqb tool "sheets.read_range" then Some ["spreadsheet_id"; "range"]
  else if String.eqb tool "sheets.write_range" then
    Some ["spreadsheet_id"; "range"; "values"]
  else if String.eqb tool "sheets.append_row" then
    Some ["spreadsheet_id"; "range"; "values"]
  else None.

(** The first of [keys] that [args] lacks. *)
Fixpoint first_missing (args : pydict) (keys : list string) : option string :=
  match keys with
  | [] => None
  | k :: keys' =>
      match dict_get args k with
      | Some _ => first_missing args keys'
      | None => Some k
      end
  end.

(** [payload] is a [tools/call] request for [tool] with the arguments
    [args] (none given counts as the empty dict, as [.get("arguments", {})]
    has it). *)
Definition tools_call_request (payload : pyval) (tool : pyval) (args : pyval)
  : Prop :=
  exists params,
    field payload "method" = Some (PStr "tools/call") /\
    field payload "params" = Some (PDict params) /\
    dict_get params "name" = Some tool /\
    args = match dict_get params "arguments" with
           | Some a => a
           | None => PDict []
           end.

(** The user has no record: the store loads as a mapping without the key. *)
Definition no_record (E : env) (fs : gmap string string) (user_id : string)
  : Prop :=
  exists store,
    load_tokens E fs = Ret (PDict store) /\ dict_get store user_id = None.

(** The user has a record with both tokens. *)
Definition stored_credentials (E : env) (fs : gmap string string)
  (user_id : string) (tok rtok : pyval) : Prop :=
  exists store record,
    load_tokens E fs = Ret (PDict store) /\
    dict_get store user_id = Some (PDict record) /\
    dict_get record "token" = Some tok /\
    dict_get record "refresh_token" = Some rtok.

(** ** A concrete environment

    Stand-ins for the libraries, used to run the program on examples: a
    JSON printer that follows [json.dump(..., indent=2, ensure_ascii=False)],
    a decoder that knows the documents of the examples, an identity
    provider that answers two authorization codes, and a Sheets service
    that accepts every request. *)
Module Demo.

Definition quote : string := String "034" EmptyString.

Definition hex_digit (n : Z) : ascii :=
  ascii_of_N (Z.to_N (if n <? 10 then 48 + n else 87 + n)).

Definition escape_char (c : ascii) : string :=
  let n := byte_val c in
  if n =? 34 then "\" ++ quote
  else if n =? 92 then "\\"
  else if n =? 10 then "\n"
  else if n =? 13 then "\r"
  else if n =? 9 then "\t"
  else if n =? 8 then "\b"
  else if n =? 12 then "\f"
  else if n <? 32 then
    "\u00" ++ String (hex_digit (n / 16)) (String (hex_digit (n mod 16)) "")
  else String c "".

Fixpoint escape (s : string) : string :=
  match s with
  | EmptyString => EmptyString
  | String c s' => escape_char c ++ escape s'
  end.

Definition json_str (s : string) : string := quote ++ escape s ++ quote.

Fixpoint spaces (n : nat) : string :=
  match n with
  | O => EmptyString
  | S n' => String " " (spaces n')
  end.

Definition newline (indent : nat) : string :=
  String "010" (spaces indent).

Fixpoint zeros (n : nat) : string :=
  match n with
  | O => EmptyString
  | S n' => String "0" (zeros n')
  end.

(** The decimal digits of [n], with a point [k] places from the right. *)
Definition with_point (n : Z) (k : nat) : string :=
  let digits := pretty n in
  let padded := zeros (S k - String.length digits) ++ digits in
  let whole := (String.length padded - k)%nat in
  substring 0 whole padded ++ "." ++ substring whole k padded.

(** A finite float written out exactly (Python writes the shortest text
    that reads back as the same float; the examples hold no float). *)
Definition float_digits (negative : bool) (m : N) (e : Z) : string :=
  (if negative then "-" else "")
  ++ (if 0 <=? e then pretty (Z.of_N m * 2 ^ e) ++ ".0"
      else with_point (Z.of_N m * 5 ^ (- e)) (Z.to_nat (- e))).

Fixpoint dumps (indent : nat) (v : pyval) {struct v} : string :=
  match v with
  | PNone => "null"
  | PBool true => "true"
  | PBool false => "false"
  | PInt z => pretty z
  | PFloat F_nan => "NaN"
  | PFloat (F_inf false) => "Infinity"
  | PFloat (F_inf true) => "-Infinity"
  | PFloat (F_num s m e) => float_digits s m e
  | PStr s => json_str s
  | PList [] => "[]"
  | PList (x :: xs) =>
      "[" ++ newline (indent + 2) ++ dumps (indent + 2) x
      ++ (fix items (xs : list pyval) : string :=
            match xs with
            | [] => EmptyString
            | y :: ys =>
                "," ++ newline (indent + 2) ++ dumps (indent + 2) y
                ++ items ys
            end) xs
      ++ newline indent ++ "]"
  | PDict [] => "{}"
  | PDict ((k, x) :: xs) =>
      "{" ++ newline (indent + 2) ++ json_str k ++ ": "
      ++ dumps (indent + 2) x
      ++ (fix items (xs : pydict) : string :=
            match xs with
            | [] => EmptyString
            | (k', y) :: ys =>
                "," ++ newline (indent + 2) ++ json_str k' ++ ": "
                ++ dumps (indent + 2) y ++ items ys
            end) xs
      ++ newline indent ++ "}"
  end.

Definition record (tok rtok : pyval) : pyval :=
  PDict [("token", tok); ("refresh_token", rtok)].

Definition store_alice : pyval :=
  PDict [("alice", record (PStr "ya29.a0") (PStr "1//r-alice"))].

Definition store_two : pyval :=
  PDict [("alice", record (PStr "ya29.a0") (PStr "1//r-alice"));
         ("bob", record (PStr "ya29.b0") (PStr "1//r-bob"))].

(** [store_two] once alice has authorized again. *)
Definition store_two_again : pyval :=
  PDict [("alice", record (PStr "ya29.a2") (PStr "1//r-alice"));
         ("bob", record (PStr "ya29.b0") (PStr "1//r-bob"))].

Definition documents : list pyval :=
  [PDict []; store_alice; store_two; store_two_again].

Definition loads (text : string) : res pyval :=
  match List.find (fun v => String.eqb (dumps 0 v) text) documents with
  | Some v => Ret v
  | None => Raise JSONDecodeError
  end.

(** The UTF-8 file of [save_tokens] refuses a str with a lone surrogate;
    the stand-in takes the dump to fail once the text is written. *)
Definition dump_raises (v : pyval) : option exn :=
  if encodable v then None else Some UnicodeEncodeError.

(** [repr] of a value; for a str inside a list or dict, of text without
    quotes, backslashes or control characters. *)
Fixpoint repr (v : pyval) : string :=
  match v with
  | PNone => "None"
  | PBool true => "True"
  | PBool false => "False"
  | PInt z => pretty z
  | PFloat F_nan => "nan"
  | PFloat (F_inf false) => "inf"
  | PFloat (F_inf true) => "-inf"
  | PFloat (F_num s m e) => float_digits s m e
  | PStr s => "'" ++ s ++ "'"
  | PList l =>
      "[" ++ (fix items (first : bool) (l : list pyval) : string :=
                match l with
                | [] => EmptyString
                | x :: l' =>
                    (if first then "" else ", ") ++ repr x ++ items false l'
                end) true l ++ "]"
  | PDict d =>
      "{" ++ (fix items (first : bool) (d : pydict) : string :=
                match d with
                | [] => EmptyString
                | (k, x) :: d' =>
                    (if first then "" else ", ") ++ "'" ++ k ++ "': "
                    ++ repr x ++ items false d'
                end) true d ++ "}"
  end.

(** The provider issues a refresh token for the code [first] and none for
    the code [again]; every other code is rejected. *)
Definition provider (flow : oauth_flow) (url : string)
  : res oauth_credentials :=
  if substringb "code=first" url then
    Ret {| token := PStr "ya29.a1"; refresh_token := PStr "1//r-new" |}
  else if substringb "code=again" url then
    Ret {| token := PStr "ya29.a2"; refresh_token := PNone |}
  else Raise (LibraryError "invalid_grant").

Definition sheets (c : remote_call) : res pyval :=
  match c with
  | values_get _ _ range =>
      Ret (PDict [("range", range);
                  ("values", PList [PList [PStr "a"; PStr "b"]])])
  | values_update _ _ range _ _ => Ret (PDict [("updatedRange", range)])
  | values_append _ _ _ _ _ _ => Ret (PDict [])
  end.

Definition E : env :=
  {| GOOGLE_CLIENT_ID := Some "client-id";
     GOOGLE_CLIENT_SECRET := Some "client-secret";
     BASE_URL := Some "https://mcp.example";
     json_loads := loads;
     json_dumps := dumps 0;
     json_dump_raises := dump_raises;
     py_repr := repr;
     fetch_token := provider;
     build := fun _ => Ret tt;
     execute := sheets |}.

Definition world_of (fs : gmap string string) : world :=
  {| files := fs; tmp_names := ["k3x9_q2a"; "0zzzzzzz"]; remote_log := [] |}.

(** No token file yet. *)
Definition fresh : world := world_of ∅.

(** The token file holds the records of alice and bob. *)
Definition two_users : world :=
  world_of {[ TOKEN_FILE := dumps 0 store_two ]}.

(** The token file holds a single byte that is no UTF-8. *)
Definition undecodable : world :=
  world_of {[ TOKEN_FILE := String "255" EmptyString ]}.

(** The token file was cut short. *)
Definition truncated : world :=
  world_of {[ TOKEN_FILE := "{" ]}.

Definition request (id_ : Z) (method : string) (rest : pydict) : pyval :=
  PDict ([("jsonrpc", PStr "2.0"); ("id", PInt id_); ("method", PStr method)]
         ++ rest).

Definition call (tool : string) (args : pydict) : string * pyval :=
  ("params", PDict [("name", PStr tool); ("arguments", PDict args)]).

Definition as_user (u : string) : string * pyval :=
  ("meta", PDict [("user_id", PStr u)]).

End Demo.

(** ** Definitions used in the statements *)

(** Creating and filling the temporary file leaves every other file alone. *)
Definition writes_only (tmp : string) (op : fs_op) : Prop :=
  match op with
  | Create n | Append n _ => n = tmp
  | Rename _ _ => False
  end.

(** What [tools_call] does once the tool name and the arguments are read. *)
Definition tool_branches (E : env) (id_ user_id tool args : pyval)
  : M (option response) :=
  if py_eq tool (PStr "sheets.read_range") then
    let* spreadsheet_id := M_lift (py_getitem args (PStr "spreadsheet_id")) in
    let* range_ := M_lift (py_getitem args (PStr "range")) in
    let* res := sheets_read_range E user_id spreadsheet_id range_ in
    if py_eq res (PStr "AUTH_REQUIRED") then
      M_ret (Some (ok (auth_error E id_ user_id)))
    else
      M_ret (Some (ok (result_envelope id_
        (PDict [("content",
                 PList [PDict [("type", PStr "json"); ("json", res)]])]))))
  else if py_eq tool (PStr "sheets.write_range") then
    let* spreadsheet_id := M_lift (py_getitem args (PStr "spreadsheet_id")) in
    let* range_ := M_lift (py_getitem args (PStr "range")) in
    let* values := M_lift (py_getitem args (PStr "values")) in
    let* res := sheets_write_range E user_id spreadsheet_id range_ values in
    if py_eq res (PStr "AUTH_REQUIRED") then
      M_ret (Some (ok (auth_error E id_ user_id)))
    else
      M_ret (Some (ok (result_envelope id_ (text_content "✅ Sheet updated"))))
  else if py_eq tool (PStr "sheets.append_row") then
    let* spreadsheet_id := M_lift (py_getitem args (PStr "spreadsheet_id")) in
    let* range_ := M_lift (py_getitem args (PStr "range")) in
    let* values := M_lift (py_getitem args (PStr "values")) in
    let* res := sheets_append_row E user_id spreadsheet_id range_ values in
    if py_eq res (PStr "AUTH_REQUIRED") then
      M_ret (Some (ok (auth_error E id_ user_id)))
    else
      M_ret (Some (ok (result_envelope id_ (text_content "➕ Row appended"))))
  else M_ret None.

(** The credentials that [get_sheets_service] builds from a record. *)
Definition user_credentials (E : env) (tok rtok : pyval) : Credentials :=
  {| creds_token := tok;
     creds_refresh_token := rtok;
     creds_token_uri := "https://oauth2.googleapis.com/token";
     creds_client_id := GOOGLE_CLIENT_ID E;
     creds_client_secret := GOOGLE_CLIENT_SECRET E;
     creds_scopes := SCOPES |}.

(** The record that the callback writes for its user. *)
Definition new_record (credentials : oauth_credentials) (existing : pyval)
  : pyval :=
  PDict [("token", token credentials);
         ("refresh_token", py_or (refresh_token credentials) existing)].

(** What the callback answers. *)
Definition connected (user_id : string) : pyval :=
  PDict [("status", PStr "sheets connected successfully");
         ("user", PStr user_id)].

(** ** Effects, requests and the catalog *)

(** The computation leaves the world as it found it, whatever it returns. *)
Definition pure_step {A} (c : M A) : Prop :=
  forall (w w' : world) (out : res A), c w = (out, w') -> w' = w.

(** The computation leaves the files and the temporary names alone and
    executes no remote request, or exactly one. *)
Definition one_request_at_most {A} (c : M A) : Prop :=
  forall (w w' : world) (out : res A),
    c w = (out, w') ->
    files w' = files w /\
    tmp_names w' = tmp_names w /\
    (remote_log w' = remote_log w \/
     exists r : remote_call, remote_log w' = (remote_log w ++ [r])%list).

(** The Sheets request that a tool builds from its arguments. *)
Definition tool_request (service : Credentials) (tool : string)
  (args : pydict) : option remote_call :=
  match dict_get args "spreadsheet_id", dict_get args "range" with
  | Some spreadsheet_id, Some range_ =>
      if String.eqb tool "sheets.read_range" then
        Some (values_get service spreadsheet_id range_)
      else
        match dict_get args "values" with
        | Some values =>
            if String.eqb tool "sheets.write_range" then
              Some (values_update service spreadsheet_id range_ "RAW"
                      (PDict [("values", values)]))
            else if String.eqb tool "sheets.append_row" then
              Some (values_append service spreadsheet_id range_ "RAW"
                      "INSERT_ROWS" (PDict [("values", PList [values])]))
            else None
        | None => None
        end
  | _, _ => None
  end.

(** What a tool answers once its request has returned [result]. *)
Definition tool_answer (E : env) (id_ user_id : pyval) (tool : string)
  (result : pyval) : res response :=
  if String.eqb tool "sheets.read_range" then
    res_bind (py_get result "values" (PList []))
      (fun res =>
         if py_eq res (PStr "AUTH_REQUIRED") then
           Ret (ok (auth_error E id_ user_id))
         else
           Ret (ok (result_envelope id_
             (PDict [("content",
                      PList [PDict [("type", PStr "json"); ("json", res)]])]))))
  else if String.eqb tool "sheets.write_range" then
    Ret (ok (result_envelope id_ (text_content "✅ Sheet updated")))
  else Ret (ok (result_envelope id_ (text_content "➕ Row appended"))).

(** The strs of a list, in order. *)
Fixpoint strs (l : list pyval) : list string :=
  match l with
  | [] => []
  | PStr s :: l' => s :: strs l'
  | _ :: l' => strs l'
  end.

(** A tool of [tools/list]: its name and the arguments its schema
    requires. *)
Definition catalog_entry (tool : pyval) : option (string * list string) :=
  match field tool "name", field tool "inputSchema" with
  | Some (PStr name), Some schema =>
      match field schema "required" with
      | Some (PList required) => Some (name, strs required)
      | _ => None
      end
  | _, _ => None
  end.

Definition advertised : list (string * list string) :=
  match tools_catalog with
  | PList tools => omap catalog_entry tools
  | _ => []
  end.

(** ** An environment with faults

    As [Demo.E], but the decoder also knows a store whose record lacks a
    key and a document that is no object, the range [Empty!A1] has no values, the Sheets client cannot be
    built for a revoked access token, and every request on the spreadsheet
    [forbidden] is refused. *)
Module Lab.

Definition store_partial : pyval :=
  PDict [("dave", PDict [("token", PStr "ya29.d0")])].

Definition store_revoked : pyval :=
  PDict [("erin", Demo.record (PStr "revoked") (PStr "1//r-erin"))].

(** [Demo.fresh] once alice has authorized with the code [first]. *)
Definition store_first : pyval :=
  PDict [("alice", Demo.record (PStr "ya29.a1") (PStr "1//r-new"))].

Definition documents : list pyval :=
  Demo.documents ++ [store_partial; store_revoked; store_first; PList []].

Definition loads (text : string) : res pyval :=
  match List.find (fun v => String.eqb (Demo.dumps 0 v) text) documents with
  | Some v => Ret v
  | None => Raise JSONDecodeError
  end.

Definition target (c : remote_call) : pyval :=
  match c with
  | values_get _ s _ => s
  | values_update _ s _ _ _ => s
  | values_append _ s _ _ _ _ => s
  end.

Definition sheets (c : remote_call) : res pyval :=
  if py_eq (target c) (PStr "forbidden") then
    Raise (LibraryError "HttpError 403")
  else
    match c with
    | values_get _ _ range =>
        if py_eq range (PStr "Empty!A1") then Ret (PDict [("range", range)])
        else Demo.sheets c
    | _ => Demo.sheets c
    end.

Definition discovery (creds : Credentials) : res unit :=
  if py_eq (creds_token creds) (PStr "revoked") then
    Raise (LibraryError "RefreshError")
  else Ret tt.

Definition E : env :=
  {| GOOGLE_CLIENT_ID := Some "client-id";
     GOOGLE_CLIENT_SECRET := Some "client-secret";
     BASE_URL := Some "https://mcp.example";
     json_loads := loads;
     json_dumps := Demo.dumps 0;
     json_dump_raises := Demo.dump_raises;
     py_repr := Demo.repr;
     fetch_token := Demo.provider;
     build := discovery;
     execute := sheets |}.

Definition partial : world :=
  Demo.world_of {[ TOKEN_FILE := Demo.dumps 0 store_partial ]}.

Definition revoked : world :=
  Demo.world_of {[ TOKEN_FILE := Demo.dumps 0 store_revoked ]}.

(** The token file holds the JSON text of an empty list. *)
Definition listed : world :=
  Demo.world_of {[ TOKEN_FILE := Demo.dumps 0 (PList []) ]}.

(** The token file was cut short and a stale temporary file was left. *)
Definition littered : world :=
  Demo.world_of {[ TOKEN_FILE := "{"; "tmpk3x9_q2a" := "{" ]}.

End Lab.

(** * Properties *)

(** ** Values and dictionaries *)

Lemma py_eq_str (v : pyval) (s : string) :
  py_eq v (PStr s) = true <-> v = PStr s.
Proof.
  destruct v; simpl; try (split; [discriminate | intros [=]]).
  rewrite String.eqb_eq. split; [intros ->; reflexivity | intros [= ->]; reflexivity].
Qed.

Lemma py_eq_str_false (v : pyval) (s : string) :
  v <> PStr s -> py_eq v (PStr s) = false.
Proof.
  intros Hne. destruct (py_eq v (PStr s)) eqn:Heq; [|reflexivity].
  apply py_eq_str in Heq. contradiction.
Qed.

Lemma py_eq_str_refl (s : string) : py_eq (PStr s) (PStr s) = true.
Proof. apply py_eq_str. reflexivity. Qed.

(** Decide the comparisons of a str with the names the program tests. *)
Ltac decide_names :=
  repeat first
    [ rewrite py_eq_str_refl
    | rewrite py_eq_str_false by discriminate ];
  cbv iota.

Lemma string_app_cons (a : ascii) (s t : string) :
  String a s ++ t = String a (s ++ t).
Proof. reflexivity. Qed.

Lemma string_app_nil_r (s : string) : s ++ EmptyString = s.
Proof.
  induction s as [|a s IH]; [reflexivity|].
  rewrite string_app_cons, IH. reflexivity.
Qed.

Lemma string_app_assoc (s t u : string) : (s ++ t) ++ u = s ++ (t ++ u).
Proof.
  induction s as [|a s IH]; [reflexivity|].
  rewrite !string_app_cons, IH. reflexivity.
Qed.

Lemma dict_get_set_eq (d : pydict) (k : string) (v : pyval) :
  dict_get (dict_set d k v) k = Some v.
Proof.
  induction d as [|[k' v'] d IH]; simpl.
  - rewrite String.eqb_refl. reflexivity.
  - destruct (String.eqb k k') eqn:Hk; simpl; rewrite Hk; [reflexivity | exact IH].
Qed.

Lemma dict_get_set_ne (d : pydict) (k k' : string) (v : pyval) :
  k <> k' -> dict_get (dict_set d k v) k' = dict_get d k'.
Proof.
  intros Hne. induction d as [|[k0 v0] d IH]; simpl.
  - destruct (String.eqb k' k) eqn:Hk; [|reflexivity].
    apply String.eqb_eq in Hk. congruence.
  - destruct (String.eqb k k0) eqn:Hk; simpl.
    + apply String.eqb_eq in Hk. subst k0.
      destruct (String.eqb k' k) eqn:Hk'; [|reflexivity].
      apply String.eqb_eq in Hk'. congruence.
    + destruct (String.eqb k' k0); [reflexivity | exact IH].
Qed.

(** ** The credential file *)

Lemma load_tokens_absent (E : env) (fs : gmap string string) :
  fs !! TOKEN_FILE = None -> load_tokens E fs = Ret (PDict []).
Proof. intros H. unfold load_tokens. rewrite H. reflexivity. Qed.

Lemma load_tokens_malformed (E : env) (fs : gmap string string)
  (bytes text : string) :
  fs !! TOKEN_FILE = Some bytes ->
  read_text bytes = Ret text ->
  json_loads E text = Raise JSONDecodeError ->
  load_tokens E fs = Ret (PDict []).
Proof.
  intros Hf Hr Hj. unfold load_tokens. rewrite Hf, Hr. simpl. rewrite Hj.
  reflexivity.
Qed.

Lemma load_tokens_same_file (E : env) (fs fs' : gmap string string) :
  fs' !! TOKEN_FILE = fs !! TOKEN_FILE -> load_tokens E fs' = load_tokens E fs.
Proof. intros H. unfold load_tokens. rewrite H. reflexivity. Qed.

(** C4: [load_tokens] returns the empty mapping for a missing file and for
    text that [json.loads] rejects, but not for every file that is not
    well-formed: bytes that are no UTF-8 make [read_text] raise
    [UnicodeDecodeError], which the [except json.JSONDecodeError] clause does
    not catch, so the error reaches the caller. *)
Theorem load_tokens_not_utf8_raises (E : env) (fs : gmap string string)
  (bytes : string) :
  fs !! TOKEN_FILE = Some bytes ->
  valid_utf8 bytes = false ->
  load_tokens E fs = Raise UnicodeDecodeError.
Proof.
  intros Hf Hv. unfold load_tokens, read_text. rewrite Hf, Hv. reflexivity.
Qed.

Lemma load_tokens_not_utf8_raises_witness :
  files Demo.undecodable !! TOKEN_FILE = Some (String "255" EmptyString) /\
  valid_utf8 (String "255" EmptyString) = false /\
  load_tokens Demo.E (files Demo.undecodable) = Raise UnicodeDecodeError.
Proof.
  split; [reflexivity|]. split; [reflexivity|].
  apply (load_tokens_not_utf8_raises Demo.E (files Demo.undecodable)
           (String "255" EmptyString)); reflexivity.
Defined.

(** ** Saving *)

Lemma mkstemp_some (names : list string) (fs : gmap string string)
  (tmp : string) (rest : list string) :
  mkstemp names fs = (Some tmp, rest) ->
  fs !! tmp = None /\ exists n, tmp = "tmp" ++ n.
Proof.
  induction names as [|n names IH]; simpl; [discriminate|].
  destruct (fs !! ("tmp" ++ n)) eqn:Hn.
  - exact IH.
  - intros [= <- <-]. split; [exact Hn | exists n; reflexivity].
Qed.

Lemma tmp_name_not_token_file (n : string) : "tmp" ++ n <> TOKEN_FILE.
Proof. unfold TOKEN_FILE. rewrite !string_app_cons. discriminate. Qed.

Lemma fs_run_writes_other (tmp : string) (ops : list fs_op) :
  Forall (writes_only tmp) ops ->
  forall (fs : gmap string string) (name : string),
    name <> tmp -> fs_run ops fs !! name = fs !! name.
Proof.
  induction 1 as [|op ops Hop _ IH]; intros fs name Hne; [reflexivity|].
  unfold fs_run in *. simpl. rewrite IH by exact Hne.
  destruct op as [n|n c|a b]; simpl in *; [subst n | subst n | contradiction].
  - apply lookup_insert_ne. congruence.
  - destruct (fs !! tmp); [|reflexivity]. apply lookup_insert_ne. congruence.
Qed.

Lemma fs_run_appends (tmp : string) (cs : list ascii) :
  forall (fs : gmap string string) (s : string),
    fs !! tmp = Some s ->
    fs_run (map (Append tmp) cs) fs !! tmp
    = Some (s ++ string_of_list_ascii cs).
Proof.
  induction cs as [|c cs IH]; intros fs s Hs; simpl.
  - rewrite Hs, string_app_nil_r. reflexivity.
  - unfold fs_run in *. simpl. rewrite Hs.
    rewrite (IH _ (s ++ String c EmptyString)) by apply lookup_insert_eq.
    rewrite string_app_assoc. reflexivity.
Qed.

Lemma fs_run_app (ops ops' : list fs_op) (fs : gmap string string) :
  fs_run (ops ++ ops') fs = fs_run ops' (fs_run ops fs).
Proof. unfold fs_run. apply fold_left_app. Qed.

Lemma save_script_split (E : env) (tmp : string) (tokens : pyval) :
  save_script E tmp tokens
  = (fill_script E tmp tokens ++ [Rename tmp TOKEN_FILE])%list.
Proof. reflexivity. Qed.

Lemma fill_script_writes_only (E : env) (tmp : string) (tokens : pyval) :
  Forall (writes_only tmp) (fill_script E tmp tokens).
Proof.
  unfold fill_script. constructor; [reflexivity|].
  apply Forall_map. apply Forall_forall. intros c _. reflexivity.
Qed.

Lemma save_script_length (E : env) (tmp : string) (tokens : pyval) :
  List.length (save_script E tmp tokens)
  = S (List.length (fill_script E tmp tokens)).
Proof. rewrite save_script_split, List.length_app. simpl. lia. Qed.

Lemma firstn_save_script (E : env) (tmp : string) (tokens : pyval) (k : nat) :
  (k < List.length (save_script E tmp tokens))%nat ->
  firstn k (save_script E tmp tokens) = firstn k (fill_script E tmp tokens).
Proof.
  rewrite save_script_length. intros Hk. rewrite save_script_split.
  rewrite firstn_app.
  replace (k - List.length (fill_script E tmp tokens))%nat with 0%nat by lia.
  rewrite firstn_O. apply app_nil_r.
Qed.

Lemma fill_script_result (E : env) (tmp : string) (tokens : pyval)
  (fs : gmap string string) :
  fs_run (fill_script E tmp tokens) fs !! tmp = Some (json_dumps E tokens).
Proof.
  unfold fill_script.
  change (Create tmp :: ?l) with ([Create tmp] ++ l)%list.
  rewrite fs_run_app.
  rewrite (fs_run_appends tmp _ _ EmptyString).
  - rewrite string_of_list_ascii_of_string. reflexivity.
  - unfold fs_run. simpl. apply lookup_insert_eq.
Qed.

(** A save whose dump raises stops before the rename: the token file is
    what it was. *)
Lemma save_tokens_dump_raises (E : env) (tokens : pyval) (w : world)
  (tmp : string) (rest : list string) (e : exn) :
  mkstemp (tmp_names w) (files w) = (Some tmp, rest) ->
  json_dump_raises E tokens = Some e ->
  save_tokens E tokens w
  = (Raise e,
     set_files (fs_run (fill_script E tmp tokens) (files w))
       (set_tmp_names rest w)) /\
  fs_run (fill_script E tmp tokens) (files w) !! TOKEN_FILE
  = files w !! TOKEN_FILE.
Proof.
  intros Hmk Hdump.
  destruct (mkstemp_some _ _ _ _ Hmk) as [_ [n Hn]].
  assert (Hne : tmp <> TOKEN_FILE)
    by (rewrite Hn; apply tmp_name_not_token_file).
  split; [unfold save_tokens; rewrite Hmk, Hdump; reflexivity|].
  apply (fs_run_writes_other tmp _ (fill_script_writes_only E tmp tokens)).
  congruence.
Qed.

(** A save that finds a temporary name and whose dump completes runs its
    whole script; the token file then holds the complete text and every
    other name is as before (the temporary file is gone). *)
Lemma save_tokens_result (E : env) (tokens : pyval) (w : world)
  (tmp : string) (rest : list string) :
  mkstemp (tmp_names w) (files w) = (Some tmp, rest) ->
  json_dump_raises E tokens = None ->
  save_tokens E tokens w
  = (Ret tt,
     set_files (fs_run (save_script E tmp tokens) (files w))
       (set_tmp_names rest w)) /\
  fs_run (save_script E tmp tokens) (files w) !! TOKEN_FILE
  = Some (json_dumps E tokens) /\
  forall name : string,
    name <> TOKEN_FILE ->
    fs_run (save_script E tmp tokens) (files w) !! name = files w !! name.
Proof.
  intros Hmk Hdump.
  destruct (mkstemp_some _ _ _ _ Hmk) as [Hfresh [n Hn]].
  assert (Hne : tmp <> TOKEN_FILE)
    by (rewrite Hn; apply tmp_name_not_token_file).
  split; [unfold save_tokens; rewrite Hmk, Hdump; reflexivity|].
  rewrite save_script_split, fs_run_app.
  pose proof (fill_script_result E tmp tokens (files w)) as Hfill.
  pose proof (fs_run_writes_other tmp _ (fill_script_writes_only E tmp tokens)
                (files w)) as Hother.
  remember (fs_run (fill_script E tmp tokens) (files w)) as fs1 eqn:Hfs1.
  unfold fs_run. simpl. rewrite Hfill. split.
  - apply lookup_insert_eq.
  - intros name Hname. rewrite lookup_insert_ne by congruence.
    destruct (decide (name = tmp)) as [->|Hnt].
    + rewrite lookup_delete_eq, Hfresh. reflexivity.
    + rewrite lookup_delete_ne by congruence. apply Hother. exact Hnt.
Qed.

Lemma save_tokens_no_name (E : env) (tokens : pyval) (w : world)
  (rest : list string) :
  mkstemp (tmp_names w) (files w) = (None, rest) ->
  save_tokens E tokens w = (Raise FileExistsError, set_tmp_names rest w).
Proof. intros H. unfold save_tokens. rewrite H. reflexivity. Qed.

(** A save that returned had found a temporary name and its dump had
    completed. *)
Lemma save_tokens_returned (E : env) (tokens : pyval) (w w' : world) :
  save_tokens E tokens w = (Ret tt, w') ->
  exists (tmp : string) (rest : list string),
    mkstemp (tmp_names w) (files w) = (Some tmp, rest) /\
    json_dump_raises E tokens = None.
Proof.
  unfold save_tokens.
  destruct (mkstemp (tmp_names w) (files w)) as [[tmp|] rest];
    [|discriminate].
  destruct (json_dump_raises E tokens) as [e|]; [discriminate|].
  intros _. exists tmp, rest. split; reflexivity.
Qed.

(** C2: [save_tokens] creates a fresh temporary file next to the target,
    writes the whole serialized mapping into it and only then renames it
    over the target.  Stopped after any number of steps short of the rename,
    the target file is exactly what it was and [load_tokens] reads what it
    read before; after the rename the target holds the complete new text.
    No step leaves a partly written target.  When [json.dump] itself raises,
    the save stops with the temporary file filled and the target as it
    was. *)
Theorem save_tokens_atomic (E : env) (tokens : pyval) (w : world)
  (tmp : string) (rest : list string) :
  mkstemp (tmp_names w) (files w) = (Some tmp, rest) ->
  let script := save_script E tmp tokens in
  files w !! tmp = None /\
  tmp <> TOKEN_FILE /\
  script = (fill_script E tmp tokens ++ [Rename tmp TOKEN_FILE])%list /\
  save_tokens E tokens w
  = match json_dump_raises E tokens with
    | None =>
        (Ret tt, set_files (fs_run script (files w)) (set_tmp_names rest w))
    | Some e =>
        (Raise e,
         set_files (fs_run (fill_script E tmp tokens) (files w))
           (set_tmp_names rest w))
    end /\
  fs_run (fill_script E tmp tokens) (files w) !! TOKEN_FILE
  = files w !! TOKEN_FILE /\
  (forall k : nat,
      (k < List.length script)%nat ->
      fs_run (firstn k script) (files w) !! TOKEN_FILE
      = files w !! TOKEN_FILE /\
      load_tokens E (fs_run (firstn k script) (files w))
      = load_tokens E (files w)) /\
  fs_run (fill_script E tmp tokens) (files w) !! tmp
  = Some (json_dumps E tokens) /\
  fs_run script (files w) !! TOKEN_FILE = Some (json_dumps E tokens) /\
  (forall k : nat,
      fs_run (firstn k script) (files w) !! TOKEN_FILE = files w !! TOKEN_FILE \/
      fs_run (firstn k script) (files w) !! TOKEN_FILE
      = Some (json_dumps E tokens)).
Proof.
  intros Hmk script.
  destruct (mkstemp_some _ _ _ _ Hmk) as [Hfresh [n Hn]].
  assert (Hne : tmp <> TOKEN_FILE)
    by (rewrite Hn; apply tmp_name_not_token_file).
  split; [exact Hfresh|]. split; [exact Hne|].
  split; [apply save_script_split|].
  split; [unfold save_tokens; rewrite Hmk;
          destruct (json_dump_raises E tokens); reflexivity|].
  split; [apply (fs_run_writes_other tmp _ (fill_script_writes_only E tmp tokens));
          congruence|].
  assert (Hbefore : forall k : nat,
             (k < List.length script)%nat ->
             fs_run (firstn k script) (files w) !! TOKEN_FILE
             = files w !! TOKEN_FILE).
  { intros k Hk. subst script. rewrite firstn_save_script by exact Hk.
    apply (fs_run_writes_other tmp).
    - apply Forall_take. apply fill_script_writes_only.
    - congruence. }
  assert (Hafter : fs_run script (files w) !! TOKEN_FILE
                   = Some (json_dumps E tokens)).
  { subst script. rewrite save_script_split, fs_run_app.
    pose proof (fill_script_result E tmp tokens (files w)) as Hfill.
    remember (fs_run (fill_script E tmp tokens) (files w)) as fs1 eqn:Hfs1.
    unfold fs_run. simpl. rewrite Hfill.
    apply lookup_insert_eq. }
  split; [|split; [|split]].
  - intros k Hk.
    split; [apply Hbefore | apply load_tokens_same_file, Hbefore]; exact Hk.
  - apply fill_script_result.
  - exact Hafter.
  - intros k. destruct (Nat.lt_ge_cases k (List.length script)) as [Hk|Hk].
    + left. apply Hbefore. exact Hk.
    + right. rewrite firstn_all2 by exact Hk. exact Hafter.
Qed.

Lemma save_tokens_atomic_witness :
  mkstemp (tmp_names Demo.two_users) (files Demo.two_users)
  = (Some "tmpk3x9_q2a", ["0zzzzzzz"]) /\
  fs_run (save_script Demo.E "tmpk3x9_q2a" Demo.store_alice)
    (files Demo.two_users) !! TOKEN_FILE
  = Some (Demo.dumps 0 Demo.store_alice).
Proof.
  split; [reflexivity|].
  apply (save_tokens_atomic Demo.E Demo.store_alice Demo.two_users
           "tmpk3x9_q2a" ["0zzzzzzz"]).
  reflexivity.
Defined.

(** ** Running the monad *)

Lemma M_bind_lift {A B} (r : res A) (k : A -> M B) (w : world) :
  M_bind (M_lift r) k w
  = match r with
    | Ret a => k a w
    | Raise e => (Raise e, w)
    end.
Proof. destruct r; reflexivity. Qed.

Lemma M_bind_ret {A B} (a : A) (k : A -> M B) (w : world) :
  M_bind (M_ret a) k w = k a w.
Proof. reflexivity. Qed.

Lemma M_bind_run {A B} (c : M A) (k : A -> M B) (w w' : world) (a : A) :
  c w = (Ret a, w') -> M_bind c k w = k a w'.
Proof. intros H. unfold M_bind. rewrite H. reflexivity. Qed.

Lemma M_bind_raise {A B} (c : M A) (k : A -> M B) (w w' : world) (e : exn) :
  c w = (Raise e, w') -> M_bind c k w = (Raise e, w').
Proof. intros H. unfold M_bind. rewrite H. reflexivity. Qed.

(** A bind that returns did so through its first part. *)
Lemma M_bind_inv {A B} (c : M A) (k : A -> M B) (w w' : world) (b : B) :
  M_bind c k w = (Ret b, w') ->
  exists a w1, c w = (Ret a, w1) /\ k a w1 = (Ret b, w').
Proof.
  unfold M_bind. destruct (c w) as [[a|e] w1]; [|discriminate].
  intros H. exists a, w1. split; [reflexivity | exact H].
Qed.

Lemma M_lift_inv {A} (r : res A) (w w' : world) (a : A) :
  M_lift r w = (Ret a, w') -> r = Ret a /\ w' = w.
Proof. unfold M_lift. intros [= -> ->]. split; reflexivity. Qed.

(** One step of a computation whose outcome [H] gives. *)
Ltac run_lift H := rewrite M_bind_lift, H; cbv beta iota.

(** ** Rendering *)

Lemma JSONResponse_inv (status : Z) (body : pyval) (r : response) :
  JSONResponse status body = Ret r ->
  r = {| status_code := status; content := body |}.
Proof.
  unfold JSONResponse.
  destruct (negb (json_compliant body)); [discriminate|].
  destruct (negb (encodable body)); [discriminate|].
  intros [= <-]. reflexivity.
Qed.

Lemma not_found_compliant (id_ : pyval) :
  json_compliant (not_found_content id_) = json_compliant id_.
Proof. simpl. rewrite !andb_true_r. reflexivity. Qed.

Lemma not_found_encodable (id_ : pyval) :
  encodable (not_found_content id_) = encodable id_.
Proof.
  unfold not_found_content.
  change (encodable (PDict ?d))
    with (forallb (fun kv => valid_utf8 (fst kv) && encodable (snd kv)) d).
  unfold forallb, fst, snd.
  change (valid_utf8 "jsonrpc") with true.
  change (valid_utf8 "id") with true.
  change (valid_utf8 "error") with true.
  change (encodable (PStr "2.0")) with true.
  change (encodable
            (PDict [("code", PInt (-32601));
                    ("message", PStr "Method not found")])) with true.
  simpl. rewrite !andb_true_r. reflexivity.
Qed.

(** The catch-all can be built exactly when the id of the request can be
    rendered. *)
Lemma JSONResponse_not_found (id_ : pyval) :
  json_compliant id_ = true ->
  encodable id_ = true ->
  JSONResponse 400 (not_found_content id_) = Ret (method_not_found id_).
Proof.
  intros Hc He. unfold JSONResponse.
  rewrite not_found_compliant, not_found_encodable, Hc, He. reflexivity.
Qed.

(** One step back from a catch-all that was returned. *)
Ltac not_found_inv H :=
  apply M_lift_inv in H; destruct H as [H _];
  apply JSONResponse_inv in H; subst.

(** ** Reading requests *)

Lemma py_getitem_field (c : pyval) (k : string) (v : pyval) :
  field c k = Some v -> py_getitem c (PStr k) = Ret v.
Proof.
  destruct c; simpl; try discriminate. intros ->. reflexivity.
Qed.

Lemma py_getitem_missing (d : pydict) (k : string) :
  dict_get d k = None -> py_getitem (PDict d) (PStr k) = Raise (KeyError (PStr k)).
Proof. simpl. intros ->. reflexivity. Qed.

Lemma py_get_field (c : pyval) (k : string) (v dflt : pyval) :
  field c k = Some v -> py_get c k dflt = Ret v.
Proof.
  destruct c; simpl; try discriminate. intros ->. reflexivity.
Qed.

Lemma rpc_request_user (payload : pyval) :
  rpc_request payload = true <-> exists u, get_user_id payload = Ret u.
Proof.
  unfold rpc_request, get_user_id. split.
  - destruct payload as [| | | | | |d]; try discriminate. simpl.
    destruct (dict_get d "meta") as [[| | | | | |m]|]; try discriminate;
      intros _; simpl; eexists; reflexivity.
  - intros [u Hu]. destruct payload as [| | | | | |d]; try discriminate.
    simpl in Hu.
    destruct (dict_get d "meta") as [[| | | | | |m]|]; try discriminate;
      reflexivity.
Qed.

Lemma rpc_request_fields (payload : pyval) :
  rpc_request payload = true ->
  exists method id_ u,
    py_get payload "method" PNone = Ret method /\
    py_get payload "id" PNone = Ret id_ /\
    get_user_id payload = Ret u.
Proof.
  intros H. destruct (proj1 (rpc_request_user payload) H) as [u Hu].
  destruct payload as [| | | | | |d]; try discriminate.
  eexists _, _, u. split; [reflexivity|]. split; [reflexivity | exact Hu].
Qed.

(** The head of the handler, common to every method. *)
Lemma mcp_handler_head (E : env) (payload method id_ user_id : pyval)
  (w : world) :
  py_get payload "method" PNone = Ret method ->
  py_get payload "id" PNone = Ret id_ ->
  get_user_id payload = Ret user_id ->
  mcp_handler E payload w
  = (if py_eq method (PStr "initialize") then
       M_ret (ok (result_envelope id_
         (PDict
            [("serverInfo",
              PDict [("name", PStr "Multi-User Google Sheets MCP");
                     ("version", PStr "0.1.0")])])))
     else if py_eq method (PStr "tools/list") then
       M_ret (ok (result_envelope id_ (PDict [("tools", tools_catalog)])))
     else if py_eq method (PStr "tools/call") then
       M_bind (tools_call E payload id_ user_id)
         (fun r => match r with
                   | Some resp => M_ret resp
                   | None => M_lift (JSONResponse 400 (not_found_content id_))
                   end)
     else M_lift (JSONResponse 400 (not_found_content id_))) w.
Proof.
  intros Hm Hi Hu. unfold mcp_handler.
  run_lift Hm. run_lift Hi. run_lift Hu. reflexivity.
Qed.

(** ** Unknown methods *)

(** C7, as the code has it: a request (a JSON object whose [meta] member,
    if any, is an object) whose id can be rendered (no infinite float, no
    [nan], no str with a lone surrogate) and whose method is none of
    [initialize], [tools/list], [tools/call] gets the "Method not found"
    error with code -32601 and status 400; the handler does not raise and
    the world is untouched. *)
Theorem unknown_method_not_found (E : env) (payload method id_ : pyval)
  (w : world) :
  rpc_request payload = true ->
  py_get payload "method" PNone = Ret method ->
  py_get payload "id" PNone = Ret id_ ->
  json_compliant id_ = true ->
  encodable id_ = true ->
  method <> PStr "initialize" ->
  method <> PStr "tools/list" ->
  method <> PStr "tools/call" ->
  mcp_handler E payload w = (Ret (method_not_found id_), w) /\
  status_code (method_not_found id_) = 400 /\
  error_code (method_not_found id_) = Some (PInt (-32601)) /\
  error_message (method_not_found id_) = Some (PStr "Method not found").
Proof.
  intros Hreq Hm Hi Hc He H1 H2 H3.
  destruct (proj1 (rpc_request_user payload) Hreq) as [u Hu].
  split; [|repeat split].
  rewrite (mcp_handler_head E payload method id_ u w Hm Hi Hu).
  rewrite !py_eq_str_false by assumption.
  unfold M_lift. rewrite (JSONResponse_not_found id_ Hc He). reflexivity.
Qed.

Lemma unknown_method_not_found_witness :
  mcp_handler Demo.E (Demo.request 3 "resources/list" []) Demo.fresh
  = (Ret (method_not_found (PInt 3)), Demo.fresh).
Proof.
  apply (unknown_method_not_found Demo.E (Demo.request 3 "resources/list" [])
           (PStr "resources/list") (PInt 3) Demo.fresh);
    first [reflexivity | discriminate].
Defined.

(** C7 as stated fails: with [meta] set to [null] the lookup of the user
    raises [AttributeError] before the method is looked at.  (It also fails
    for an id that cannot be rendered, see [unknown_method_bad_id_raises].) *)
Lemma unknown_method_null_meta_raises :
  py_get (Demo.request 3 "resources/list" [("meta", PNone)]) "method" PNone
  = Ret (PStr "resources/list") /\
  mcp_handler Demo.E (Demo.request 3 "resources/list" [("meta", PNone)])
    Demo.fresh
  = (Raise AttributeError, Demo.fresh).
Proof. split; reflexivity. Qed.

(** An id that cannot be rendered makes the constructor of the catch-all
    response raise: [ValueError] for an infinite number (the JSON text
    [1e999]), [UnicodeEncodeError] for a str with a lone surrogate (the JSON
    text of the escape d800, here as its three bytes). *)
Example unknown_method_bad_id_raises :
  rpc_request
    (PDict [("jsonrpc", PStr "2.0"); ("id", PFloat (F_inf false));
            ("method", PStr "resources/list")]) = true /\
  mcp_handler Demo.E
    (PDict [("jsonrpc", PStr "2.0"); ("id", PFloat (F_inf false));
            ("method", PStr "resources/list")]) Demo.fresh
  = (Raise ValueError, Demo.fresh) /\
  mcp_handler Demo.E
    (PDict [("jsonrpc", PStr "2.0");
            ("id", PStr (String "237" (String "160" (String "128" EmptyString))));
            ("method", PStr "resources/list")]) Demo.fresh
  = (Raise UnicodeEncodeError, Demo.fresh).
Proof. repeat split; reflexivity. Qed.

(** ** Tool calls *)

Lemma tools_call_request_method (payload tool args : pyval) :
  tools_call_request payload tool args ->
  py_get payload "method" PNone = Ret (PStr "tools/call").
Proof. intros (params & Hm & _). apply py_get_field. exact Hm. Qed.

Lemma tools_call_reads (E : env) (payload id_ user_id tool args : pyval)
  (w : world) :
  tools_call_request payload tool args ->
  tools_call E payload id_ user_id w = tool_branches E id_ user_id tool args w.
Proof.
  intros (params & _ & Hp & Hn & Ha). unfold tools_call.
  run_lift (py_getitem_field _ _ _ Hp).
  run_lift (py_getitem_field (PDict params) "name" tool Hn).
  rewrite M_bind_lift. cbv beta iota.
  rewrite M_bind_lift. unfold py_get. rewrite <- Ha. reflexivity.
Qed.

(** A [tools/call] request runs the branch of its tool, and a branch that
    matched no tool ends in the catch-all. *)
Lemma mcp_handler_tools_call (E : env) (payload id_ user_id tool args : pyval)
  (w : world) :
  tools_call_request payload tool args ->
  py_get payload "id" PNone = Ret id_ ->
  get_user_id payload = Ret user_id ->
  mcp_handler E payload w
  = match tool_branches E id_ user_id tool args w with
    | (Ret (Some resp), w') => (Ret resp, w')
    | (Ret None, w') => (JSONResponse 400 (not_found_content id_), w')
    | (Raise e, w') => (Raise e, w')
    end.
Proof.
  intros Hreq Hi Hu.
  rewrite (mcp_handler_head E payload _ id_ user_id w
             (tools_call_request_method _ _ _ Hreq) Hi Hu).
  simpl. unfold M_bind. rewrite (tools_call_reads E _ _ _ _ _ _ Hreq).
  destruct (tool_branches E id_ user_id tool args w) as [[[resp|]|e] w'];
    reflexivity.
Qed.

(** C10, as the code has it: a [tools/call] request (a JSON object whose
    [meta] member, if any, is an object) whose id can be rendered and that
    names none of the three tools gets the same "Method not found" response
    as an unknown method: code -32601, status 400. *)
Theorem unknown_tool_not_found (E : env) (payload tool args id_ : pyval)
  (w : world) :
  rpc_request payload = true ->
  tools_call_request payload tool args ->
  py_get payload "id" PNone = Ret id_ ->
  json_compliant id_ = true ->
  encodable id_ = true ->
  tool <> PStr "sheets.read_range" ->
  tool <> PStr "sheets.write_range" ->
  tool <> PStr "sheets.append_row" ->
  mcp_handler E payload w = (Ret (method_not_found id_), w) /\
  status_code (method_not_found id_) = 400 /\
  error_code (method_not_found id_) = Some (PInt (-32601)) /\
  error_message (method_not_found id_) = Some (PStr "Method not found").
Proof.
  intros Hreq Hcall Hi Hc He H1 H2 H3.
  destruct (proj1 (rpc_request_user payload) Hreq) as [u Hu].
  split; [|split; [reflexivity | split; reflexivity]].
  rewrite (mcp_handler_tools_call E payload id_ u tool args w Hcall Hi Hu).
  unfold tool_branches. rewrite !py_eq_str_false by assumption.
  unfold M_ret. rewrite (JSONResponse_not_found id_ Hc He). reflexivity.
Qed.

Lemma unknown_tool_not_found_witness :
  mcp_handler Demo.E
    (Demo.request 4 "tools/call"
       [Demo.call "sheets.delete_range" [("spreadsheet_id", PStr "S1")]])
    Demo.two_users
  = (Ret (method_not_found (PInt 4)), Demo.two_users).
Proof.
  apply (unknown_tool_not_found Demo.E
           (Demo.request 4 "tools/call"
              [Demo.call "sheets.delete_range" [("spreadsheet_id", PStr "S1")]])
           (PStr "sheets.delete_range")
           (PDict [("spreadsheet_id", PStr "S1")]) (PInt 4) Demo.two_users);
    first [ reflexivity | discriminate
          | eexists; repeat split; reflexivity ].
Defined.

(** C10 as stated fails: with a [meta] member that is no object the lookup
    of the user raises [AttributeError] before the tool name is read.  (It
    also fails for an id that cannot be rendered, see
    [unknown_tool_bad_id_raises].) *)
Lemma unknown_tool_bad_meta_raises :
  tools_call_request
    (Demo.request 4 "tools/call"
       [Demo.call "sheets.delete_range" []; ("meta", PStr "alice")])
    (PStr "sheets.delete_range") (PDict []) /\
  mcp_handler Demo.E
    (Demo.request 4 "tools/call"
       [Demo.call "sheets.delete_range" []; ("meta", PStr "alice")])
    Demo.two_users
  = (Raise AttributeError, Demo.two_users).
Proof.
  split; [|reflexivity].
  eexists. repeat split; reflexivity.
Qed.

(** The same for an unknown tool: with [nan] as id the catch-all cannot be
    built and the handler raises [ValueError]. *)
Example unknown_tool_bad_id_raises :
  tools_call_request
    (PDict [("jsonrpc", PStr "2.0"); ("id", PFloat F_nan);
            ("method", PStr "tools/call");
            ("params", PDict [("name", PStr "sheets.delete_range")])])
    (PStr "sheets.delete_range") (PDict []) /\
  mcp_handler Demo.E
    (PDict [("jsonrpc", PStr "2.0"); ("id", PFloat F_nan);
            ("method", PStr "tools/call");
            ("params", PDict [("name", PStr "sheets.delete_range")])])
    Demo.two_users
  = (Raise ValueError, Demo.two_users).
Proof.
  split; [|reflexivity].
  eexists. repeat split; reflexivity.
Qed.

Lemma required_args_cases (tool : string) (keys : list string) :
  required_args tool = Some keys ->
  (tool = "sheets.read_range" /\ keys = ["spreadsheet_id"; "range"]) \/
  (tool = "sheets.write_range" /\ keys = ["spreadsheet_id"; "range"; "values"]) \/
  (tool = "sheets.append_row" /\ keys = ["spreadsheet_id"; "range"; "values"]).
Proof.
  unfold required_args.
  destruct (String.eqb tool "sheets.read_range") eqn:H1.
  { apply String.eqb_eq in H1. intros [= <-]. left. split; [exact H1 | reflexivity]. }
  destruct (String.eqb tool "sheets.write_range") eqn:H2.
  { apply String.eqb_eq in H2. intros [= <-]. right. left.
    split; [exact H2 | reflexivity]. }
  destruct (String.eqb tool "sheets.append_row") eqn:H3; [|discriminate].
  apply String.eqb_eq in H3. intros [= <-]. right. right.
  split; [exact H3 | reflexivity].
Qed.

(** Reading the arguments of a catalogued tool stops at the first one that
    is missing. *)
Lemma tool_branches_missing (E : env) (id_ user_id : pyval) (tool : string)
  (args : pydict) (keys : list string) (k : string) (w : world) :
  required_args tool = Some keys ->
  first_missing args keys = Some k ->
  tool_branches E id_ user_id (PStr tool) (PDict args) w
  = (Raise (KeyError (PStr k)), w).
Proof.
  intros Hreq Hmiss.
  destruct (required_args_cases tool keys Hreq)
    as [[-> ->]|[[-> ->]|[-> ->]]];
    unfold tool_branches; decide_names;
    simpl in Hmiss;
    (destruct (dict_get args "spreadsheet_id") as [a1|] eqn:Ha1;
     [ run_lift (py_getitem_field (PDict args) _ _ Ha1)
     | injection Hmiss as Hk; subst k;
       rewrite M_bind_lift, (py_getitem_missing _ _ Ha1); reflexivity ]);
    (destruct (dict_get args "range") as [a2|] eqn:Ha2;
     [ run_lift (py_getitem_field (PDict args) _ _ Ha2)
     | injection Hmiss as Hk; subst k;
       rewrite M_bind_lift, (py_getitem_missing _ _ Ha2); reflexivity ]);
    try discriminate;
    (destruct (dict_get args "values") as [a3|] eqn:Ha3;
     [ discriminate
     | injection Hmiss as Hk; subst k;
       rewrite M_bind_lift, (py_getitem_missing _ _ Ha3); reflexivity ]).
Qed.

(** C5, as the code has it: the dispatcher does not validate arguments.  A
    [tools/call] request for a catalogued tool whose arguments lack a
    required key makes the lookup of the first missing key raise
    [KeyError]; this happens before the credential store is read or a remote
    request is made (the world is untouched), and no response is built. *)
Theorem missing_argument_raises (E : env) (payload : pyval) (tool : string)
  (args : pydict) (keys : list string) (k : string) (w : world) :
  rpc_request payload = true ->
  tools_call_request payload (PStr tool) (PDict args) ->
  required_args tool = Some keys ->
  first_missing args keys = Some k ->
  mcp_handler E payload w = (Raise (KeyError (PStr k)), w).
Proof.
  intros Hreq Hcall Htool Hmiss.
  destruct (rpc_request_fields payload Hreq) as (method & id_ & u & _ & Hi & Hu).
  rewrite (mcp_handler_tools_call E payload id_ u _ _ w Hcall Hi Hu).
  rewrite (tool_branches_missing E id_ u tool args keys k w Htool Hmiss).
  reflexivity.
Qed.

Lemma missing_argument_raises_witness :
  mcp_handler Demo.E
    (Demo.request 5 "tools/call"
       [Demo.call "sheets.append_row"
          [("spreadsheet_id", PStr "S1"); ("values", PList [PStr "x"])];
        Demo.as_user "bob"])
    Demo.two_users
  = (Raise (KeyError (PStr "range")), Demo.two_users).
Proof.
  apply (missing_argument_raises Demo.E _ "sheets.append_row"
           [("spreadsheet_id", PStr "S1"); ("values", PList [PStr "x"])]
           ["spreadsheet_id"; "range"; "values"] "range" Demo.two_users);
    first [ reflexivity | eexists; repeat split; reflexivity ].
Defined.

(** C5 as stated fails: bob has stored credentials and calls
    [sheets.write_range] without [values]; the handler builds no error
    response, it raises [KeyError]. *)
Lemma missing_values_is_not_reported :
  stored_credentials Demo.E (files Demo.two_users) "bob"
    (PStr "ya29.b0") (PStr "1//r-bob") /\
  required_args "sheets.write_range"
  = Some ["spreadsheet_id"; "range"; "values"] /\
  mcp_handler Demo.E
    (Demo.request 5 "tools/call"
       [Demo.call "sheets.write_range"
          [("spreadsheet_id", PStr "S1"); ("range", PStr "A1:B2")];
        Demo.as_user "bob"])
    Demo.two_users
  = (Raise (KeyError (PStr "values")), Demo.two_users).
Proof.
  split; [|split; reflexivity].
  eexists _, _. repeat split; reflexivity.
Qed.

(** ** Credential resolution *)

Lemma get_sheets_service_absent (E : env) (u : string) (w : world) :
  no_record E (files w) u ->
  get_sheets_service E (PStr u) w = (Ret None, w).
Proof.
  intros (store & Hload & Hnone). unfold get_sheets_service.
  rewrite (M_bind_run (M_load_tokens E) _ w w (PDict store))
    by (unfold M_load_tokens; rewrite Hload; reflexivity).
  rewrite M_bind_lift. simpl. rewrite Hnone. reflexivity.
Qed.

Lemma get_sheets_service_stored (E : env) (u : string) (tok rtok : pyval)
  (w : world) :
  stored_credentials E (files w) u tok rtok ->
  build E (user_credentials E tok rtok) = Ret tt ->
  get_sheets_service E (PStr u) w
  = (Ret (Some (user_credentials E tok rtok)), w).
Proof.
  intros (store & record & Hload & Hrec & Htok & Hrtok) Hbuild.
  unfold get_sheets_service.
  rewrite (M_bind_run (M_load_tokens E) _ w w (PDict store))
    by (unfold M_load_tokens; rewrite Hload; reflexivity).
  rewrite M_bind_lift. simpl py_in. rewrite Hrec. cbv beta iota.
  change (negb true) with false. cbv iota.
  run_lift (py_getitem_field (PDict store) u _ Hrec).
  run_lift (py_getitem_field (PDict record) "token" _ Htok).
  rewrite M_bind_lift. cbv beta iota.
  run_lift (py_getitem_field (PDict record) "refresh_token" _ Hrtok).
  fold (user_credentials E tok rtok). rewrite M_bind_lift, Hbuild.
  reflexivity.
Qed.

Lemma auth_required_eq : py_eq (PStr "AUTH_REQUIRED") (PStr "AUTH_REQUIRED") = true.
Proof. apply py_eq_str_refl. Qed.

(** Without a record every catalogued tool, given its arguments, ends in
    the authorization error. *)
Lemma tool_branches_absent (E : env) (id_ : pyval) (u tool : string)
  (args : pydict) (keys : list string) (w : world) :
  required_args tool = Some keys ->
  first_missing args keys = None ->
  no_record E (files w) u ->
  tool_branches E id_ (PStr u) (PStr tool) (PDict args) w
  = (Ret (Some (ok (auth_error E id_ (PStr u)))), w).
Proof.
  intros Hreq Hmiss Habs.
  pose proof (get_sheets_service_absent E u w Habs) as Hsvc.
  destruct (required_args_cases tool keys Hreq)
    as [[-> ->]|[[-> ->]|[-> ->]]];
    unfold tool_branches; decide_names;
    simpl in Hmiss;
    destruct (dict_get args "spreadsheet_id") as [a1|] eqn:Ha1;
    try discriminate;
    destruct (dict_get args "range") as [a2|] eqn:Ha2; try discriminate;
    run_lift (py_getitem_field (PDict args) _ _ Ha1);
    run_lift (py_getitem_field (PDict args) _ _ Ha2).
  - unfold sheets_read_range.
    rewrite (M_bind_run _ _ w w _ (M_bind_run _ _ w w _ Hsvc)).
    rewrite auth_required_eq. reflexivity.
  - destruct (dict_get args "values") as [a3|] eqn:Ha3; try discriminate.
    run_lift (py_getitem_field (PDict args) _ _ Ha3).
    unfold sheets_write_range.
    rewrite (M_bind_run _ _ w w _ (M_bind_run _ _ w w _ Hsvc)).
    rewrite auth_required_eq. reflexivity.
  - destruct (dict_get args "values") as [a3|] eqn:Ha3; try discriminate.
    run_lift (py_getitem_field (PDict args) _ _ Ha3).
    unfold sheets_append_row.
    rewrite (M_bind_run _ _ w w _ (M_bind_run _ _ w w _ Hsvc)).
    rewrite auth_required_eq. reflexivity.
Qed.

(** C1, as the code has it: for a user without a record, a [tools/call]
    request for one of the three tools that carries the tool's required
    arguments returns the authorization error: code 401 and a message that
    ends in the recovery URL, [BASE_URL/auth/google?user_id=] followed by
    exactly that user id.  The handler does not raise, builds no result,
    and leaves the world untouched. *)
Theorem absent_user_auth_required (E : env) (payload id_ : pyval)
  (u tool : string) (args : pydict) (keys : list string) (w : world) :
  get_user_id payload = Ret (PStr u) ->
  py_get payload "id" PNone = Ret id_ ->
  tools_call_request payload (PStr tool) (PDict args) ->
  required_args tool = Some keys ->
  first_missing args keys = None ->
  no_record E (files w) u ->
  mcp_handler E payload w = (Ret (ok (auth_error E id_ (PStr u))), w) /\
  error_code (ok (auth_error E id_ (PStr u))) = Some (PInt 401) /\
  field (content (ok (auth_error E id_ (PStr u)))) "result" = None /\
  error_message (ok (auth_error E id_ (PStr u)))
  = Some (PStr ("Google Sheets not connected for user '" ++ u ++ "'. Visit "
                ++ str_of_config (BASE_URL E) ++ "/auth/google?user_id=" ++ u)).
Proof.
  intros Hu Hi Hcall Htool Hargs Habs.
  split; [|split; [reflexivity | split; reflexivity]].
  rewrite (mcp_handler_tools_call E payload id_ (PStr u) _ _ w Hcall Hi Hu).
  rewrite (tool_branches_absent E id_ u tool args keys w Htool Hargs Habs).
  reflexivity.
Qed.

Lemma absent_user_auth_required_witness :
  error_message
    (ok (auth_error Demo.E (PInt 7) (PStr "carol")))
  = Some (PStr ("Google Sheets not connected for user '" ++ "carol"
                ++ "'. Visit " ++ str_of_config (BASE_URL Demo.E)
                ++ "/auth/google?user_id=" ++ "carol")) /\
  mcp_handler Demo.E
    (Demo.request 7 "tools/call"
       [Demo.call "sheets.read_range"
          [("spreadsheet_id", PStr "S1"); ("range", PStr "A1:B2")];
        Demo.as_user "carol"])
    Demo.two_users
  = (Ret (ok (auth_error Demo.E (PInt 7) (PStr "carol"))), Demo.two_users).
Proof.
  assert (H := absent_user_auth_required Demo.E
           (Demo.request 7 "tools/call"
              [Demo.call "sheets.read_range"
                 [("spreadsheet_id", PStr "S1"); ("range", PStr "A1:B2")];
               Demo.as_user "carol"])
           (PInt 7) "carol" "sheets.read_range"
           [("spreadsheet_id", PStr "S1"); ("range", PStr "A1:B2")]
           ["spreadsheet_id"; "range"] Demo.two_users
           eq_refl eq_refl
           (ex_intro _ _ (conj eq_refl (conj eq_refl (conj eq_refl eq_refl))))
           eq_refl eq_refl
           (ex_intro _ _ (conj eq_refl eq_refl))).
  split; [apply H | apply H].
Defined.

(** C1 as stated fails: carol has no record and calls [sheets.read_range]
    without [range]; the arguments are read before the credentials are
    looked up, and the handler raises [KeyError] instead of returning the
    authorization error. *)
Lemma absent_user_missing_argument_raises :
  no_record Demo.E (files Demo.two_users) "carol" /\
  tools_call_request
    (Demo.request 7 "tools/call"
       [Demo.call "sheets.read_range" [("spreadsheet_id", PStr "S1")];
        Demo.as_user "carol"])
    (PStr "sheets.read_range") (PDict [("spreadsheet_id", PStr "S1")]) /\
  mcp_handler Demo.E
    (Demo.request 7 "tools/call"
       [Demo.call "sheets.read_range" [("spreadsheet_id", PStr "S1")];
        Demo.as_user "carol"])
    Demo.two_users
  = (Raise (KeyError (PStr "range")), Demo.two_users).
Proof.
  split; [|split; [|reflexivity]].
  - eexists. split; reflexivity.
  - eexists. repeat split; reflexivity.
Qed.

(** ** A successful write *)

(** C8: a [tools/call] of [sheets.write_range] for a user with stored
    credentials, when the Sheets client can be built and the request goes
    through, executes exactly one remote request, the [update] of the given
    spreadsheet and range with [valueInputOption="RAW"] and the given values
    as body, and returns the success envelope with the id of the request. *)
Theorem write_range_updates (E : env) (payload id_ : pyval) (u : string)
  (args : pydict) (spreadsheet_id range_ values tok rtok r : pyval)
  (w : world) :
  get_user_id payload = Ret (PStr u) ->
  py_get payload "id" PNone = Ret id_ ->
  tools_call_request payload (PStr "sheets.write_range") (PDict args) ->
  dict_get args "spreadsheet_id" = Some spreadsheet_id ->
  dict_get args "range" = Some range_ ->
  dict_get args "values" = Some values ->
  stored_credentials E (files w) u tok rtok ->
  build E (user_credentials E tok rtok) = Ret tt ->
  execute E (values_update (user_credentials E tok rtok) spreadsheet_id range_
               "RAW" (PDict [("values", values)])) = Ret r ->
  let update := values_update (user_credentials E tok rtok) spreadsheet_id
                  range_ "RAW" (PDict [("values", values)]) in
  let resp := ok (result_envelope id_ (text_content "✅ Sheet updated")) in
  mcp_handler E payload w = (Ret resp, log_call update w) /\
  remote_log (log_call update w) = (remote_log w ++ [update])%list /\
  files (log_call update w) = files w /\
  status_code resp = 200 /\
  field (content resp) "id" = Some id_ /\
  field (content resp) "error" = None.
Proof.
  intros Hu Hi Hcall Ha1 Ha2 Ha3 Hcreds Hbuild Hexec update resp.
  split; [|repeat split].
  rewrite (mcp_handler_tools_call E payload id_ (PStr u) _ _ w Hcall Hi Hu).
  unfold tool_branches. decide_names.
  run_lift (py_getitem_field (PDict args) _ _ Ha1).
  run_lift (py_getitem_field (PDict args) _ _ Ha2).
  run_lift (py_getitem_field (PDict args) _ _ Ha3).
  assert (Hw : sheets_write_range E (PStr u) spreadsheet_id range_ values w
               = (Ret (PStr "UPDATED"), log_call update w)).
  { unfold sheets_write_range.
    rewrite (M_bind_run _ _ w w _
               (get_sheets_service_stored E u tok rtok w Hcreds Hbuild)).
    unfold M_bind, run_remote. rewrite Hexec. reflexivity. }
  rewrite (M_bind_run _ _ _ _ _ Hw). decide_names. reflexivity.
Qed.

Lemma write_range_updates_witness :
  mcp_handler Demo.E
    (Demo.request 8 "tools/call"
       [Demo.call "sheets.write_range"
          [("spreadsheet_id", PStr "S1"); ("range", PStr "A1:B2");
           ("values", PList [PList [PStr "x"; PStr "y"];
                             PList [PStr "1"; PStr "2"]])];
        Demo.as_user "bob"])
    Demo.two_users
  = (Ret (ok (result_envelope (PInt 8) (text_content "✅ Sheet updated"))),
     log_call
       (values_update
          (user_credentials Demo.E (PStr "ya29.b0") (PStr "1//r-bob"))
          (PStr "S1") (PStr "A1:B2") "RAW"
          (PDict [("values", PList [PList [PStr "x"; PStr "y"];
                                    PList [PStr "1"; PStr "2"]])]))
       Demo.two_users).
Proof.
  apply (write_range_updates Demo.E
           (Demo.request 8 "tools/call"
              [Demo.call "sheets.write_range"
                 [("spreadsheet_id", PStr "S1"); ("range", PStr "A1:B2");
                  ("values", PList [PList [PStr "x"; PStr "y"];
                                    PList [PStr "1"; PStr "2"]])];
               Demo.as_user "bob"])
           (PInt 8) "bob"
           [("spreadsheet_id", PStr "S1"); ("range", PStr "A1:B2");
            ("values", PList [PList [PStr "x"; PStr "y"];
                              PList [PStr "1"; PStr "2"]])]
           (PStr "S1") (PStr "A1:B2")
           (PList [PList [PStr "x"; PStr "y"]; PList [PStr "1"; PStr "2"]])
           (PStr "ya29.b0") (PStr "1//r-bob")
           (PDict [("updatedRange", PStr "A1:B2")]) Demo.two_users);
    first [ reflexivity
          | eexists; repeat split; reflexivity
          | eexists _, _; repeat split; reflexivity ].
Defined.

(** ** The envelope *)

(** Follow a computation that returned back through its steps. *)
Ltac inv_run :=
  repeat match goal with
  | H : M_bind _ _ _ = (Ret _, _) |- _ =>
      apply M_bind_inv in H; destruct H as (? & ? & _ & H); cbv beta in H
  | H : (if ?c then _ else _) _ = (Ret _, _) |- _ => destruct c
  | H : M_ret _ _ = (Ret _, _) |- _ =>
      unfold M_ret in H; injection H as ? ?; subst
  end.

Lemma tools_call_envelope (E : env) (payload id_ user_id : pyval)
  (w w' : world) (resp : response) :
  tools_call E payload id_ user_id w = (Ret (Some resp), w') ->
  field (content resp) "jsonrpc" = Some (PStr "2.0") /\
  field (content resp) "id" = Some id_.
Proof.
  intros H. unfold tools_call in H. inv_run;
    first [ discriminate | split; reflexivity ].
Qed.

(** C6: whatever the method, a response that the handler produces is a
    JSON object with ["jsonrpc": "2.0"] and, as ["id"], the [id] member of
    the request ([null] when the request has none). *)
Theorem response_envelope (E : env) (payload : pyval) (w w' : world)
  (resp : response) :
  mcp_handler E payload w = (Ret resp, w') ->
  exists id_,
    py_get payload "id" PNone = Ret id_ /\
    field (content resp) "jsonrpc" = Some (PStr "2.0") /\
    field (content resp) "id" = Some id_.
Proof.
  intros H. unfold mcp_handler in H.
  apply M_bind_inv in H. destruct H as (method & w1 & _ & H). cbv beta in H.
  apply M_bind_inv in H. destruct H as (id_ & w2 & Hid & H). cbv beta in H.
  apply M_lift_inv in Hid. destruct Hid as [Hid _].
  apply M_bind_inv in H. destruct H as (u & w3 & _ & H). cbv beta in H.
  exists id_. split; [exact Hid|].
  destruct (py_eq method (PStr "initialize"));
    [unfold M_ret in H; injection H as <- _; split; reflexivity|].
  destruct (py_eq method (PStr "tools/list"));
    [unfold M_ret in H; injection H as <- _; split; reflexivity|].
  destruct (py_eq method (PStr "tools/call"));
    [|not_found_inv H; split; reflexivity].
  apply M_bind_inv in H. destruct H as (r & w4 & Hcall & H).
  destruct r as [resp'|].
  - unfold M_ret in H; injection H as <- _.
    exact (tools_call_envelope E payload id_ u w3 w4 resp' Hcall).
  - not_found_inv H. split; reflexivity.
Qed.

Lemma response_envelope_witness :
  exists id_,
    py_get (Demo.request 9 "tools/list" []) "id" PNone = Ret id_ /\
    field (content (ok (result_envelope (PInt 9)
                          (PDict [("tools", tools_catalog)])))) "jsonrpc"
    = Some (PStr "2.0") /\
    field (content (ok (result_envelope (PInt 9)
                          (PDict [("tools", tools_catalog)])))) "id"
    = Some id_.
Proof.
  apply (response_envelope Demo.E (Demo.request 9 "tools/list" [])
           Demo.fresh Demo.fresh).
  reflexivity.
Defined.

(** ** The authorization callback *)

(** The callback, step by step, when the store loads as a mapping. *)
Lemma google_callback_steps (E : env) (url : string) (state : option string)
  (w : world) (store : pydict) :
  load_tokens E (files w) = Ret (PDict store) ->
  google_callback E url state w
  = match fetch_token E (get_oauth_flow E) url with
    | Raise e => (Raise e, w)
    | Ret credentials =>
        match py_get (match dict_get store (state_user state) with
                      | Some x => x
                      | None => PDict []
                      end) "refresh_token" PNone with
        | Raise e => (Raise e, w)
        | Ret existing =>
            match save_tokens E
                    (PDict (dict_set store (state_user state)
                              (new_record credentials existing))) w with
            | (Ret _, w') => (Ret (connected (state_user state)), w')
            | (Raise e, w') => (Raise e, w')
            end
        end
    end.
Proof.
  intros Hload. unfold google_callback. rewrite M_bind_lift.
  destruct (fetch_token E (get_oauth_flow E) url) as [credentials|e];
    [|reflexivity].
  rewrite (M_bind_run (M_load_tokens E) _ w w (PDict store))
    by (unfold M_load_tokens; rewrite Hload; reflexivity).
  rewrite M_bind_lift. simpl py_get at 1. cbv beta iota.
  rewrite M_bind_lift.
  destruct (py_get _ "refresh_token" PNone) as [existing|e]; [|reflexivity].
  rewrite M_bind_lift. simpl py_setitem. cbv beta iota.
  unfold M_bind, new_record.
  destruct (save_tokens E _ w) as [[[]|e] w']; reflexivity.
Qed.

Lemma py_or_none (v : pyval) : py_or PNone v = v.
Proof. reflexivity. Qed.

(** C3: when the user already has a stored refresh token [r] and the
    provider answers with an access token [t] and no refresh token, the
    callback (given a free temporary name and a mapping that [json.dump]
    can write) returns, and the file then holds the serialization of a
    mapping in which the user's record is
    [{"token": t, "refresh_token": r}]. *)
Theorem callback_keeps_refresh_token (E : env) (url : string)
  (state : option string) (w : world) (store record : pydict) (r t : pyval)
  (tmp : string) (rest : list string) :
  load_tokens E (files w) = Ret (PDict store) ->
  dict_get store (state_user state) = Some (PDict record) ->
  dict_get record "refresh_token" = Some r ->
  fetch_token E (get_oauth_flow E) url
  = Ret {| token := t; refresh_token := PNone |} ->
  mkstemp (tmp_names w) (files w) = (Some tmp, rest) ->
  json_dump_raises E
    (PDict (dict_set store (state_user state)
              (PDict [("token", t); ("refresh_token", r)]))) = None ->
  exists (w' : world) (store' : pydict),
    google_callback E url state w = (Ret (connected (state_user state)), w') /\
    files w' !! TOKEN_FILE = Some (json_dumps E (PDict store')) /\
    dict_get store' (state_user state)
    = Some (PDict [("token", t); ("refresh_token", r)]).
Proof.
  intros Hload Hrec Hr Hfetch Hmk Hdump.
  set (store' := dict_set store (state_user state)
                   (PDict [("token", t); ("refresh_token", r)])).
  destruct (save_tokens_result E (PDict store') w tmp rest Hmk Hdump)
    as (Hsave & Hfile & _).
  eexists _, store'. split; [|split].
  - rewrite (google_callback_steps E url state w store Hload).
    rewrite Hfetch, Hrec. simpl py_get. rewrite Hr.
    unfold new_record. simpl token. simpl refresh_token. rewrite py_or_none.
    fold store'. rewrite Hsave. reflexivity.
  - exact Hfile.
  - apply dict_get_set_eq.
Qed.

Lemma callback_keeps_refresh_token_witness :
  exists (w' : world) (store' : pydict),
    google_callback Demo.E
      "https://mcp.example/auth/google/callback?state=alice&code=again"
      (Some "alice") Demo.two_users
    = (Ret (connected "alice"), w') /\
    files w' !! TOKEN_FILE = Some (Demo.dumps 0 (PDict store')) /\
    dict_get store' "alice"
    = Some (PDict [("token", PStr "ya29.a2");
                   ("refresh_token", PStr "1//r-alice")]).
Proof.
  apply (callback_keeps_refresh_token Demo.E
           "https://mcp.example/auth/google/callback?state=alice&code=again"
           (Some "alice") Demo.two_users
           [("alice", Demo.record (PStr "ya29.a0") (PStr "1//r-alice"));
            ("bob", Demo.record (PStr "ya29.b0") (PStr "1//r-bob"))]
           [("token", PStr "ya29.a0"); ("refresh_token", PStr "1//r-alice")]
           (PStr "1//r-alice") (PStr "ya29.a2")
           "tmpk3x9_q2a" ["0zzzzzzz"]);
    reflexivity.
Defined.

(** C9: the callback changes the record of its own user only.  When the
    store loads as a mapping and the callback returns, the file holds the
    serialization of a mapping in which every other user has the record
    (both tokens) that the loaded mapping had; when the callback raises, the
    file is what it was. *)
Theorem callback_frame (E : env) (url : string) (state : option string)
  (w w' : world) (store : pydict) (out : res pyval) :
  load_tokens E (files w) = Ret (PDict store) ->
  google_callback E url state w = (out, w') ->
  match out with
  | Ret _ =>
      exists store' : pydict,
        files w' !! TOKEN_FILE = Some (json_dumps E (PDict store')) /\
        forall v : string,
          v <> state_user state -> dict_get store' v = dict_get store v
  | Raise _ => files w' !! TOKEN_FILE = files w !! TOKEN_FILE
  end.
Proof.
  intros Hload. rewrite (google_callback_steps E url state w store Hload).
  destruct (fetch_token E (get_oauth_flow E) url) as [credentials|e];
    [|intros [= <- <-]; reflexivity].
  destruct (py_get _ "refresh_token" PNone) as [existing|e];
    [|intros [= <- <-]; reflexivity].
  destruct (mkstemp (tmp_names w) (files w)) as [[tmp|] rest] eqn:Hmk.
  - destruct (json_dump_raises E
                (PDict (dict_set store (state_user state)
                          (new_record credentials existing))))
      as [e|] eqn:Hdump.
    + destruct (save_tokens_dump_raises E _ w tmp rest e Hmk Hdump)
        as (Hsave & Hfile).
      rewrite Hsave. intros [= <- <-]. exact Hfile.
    + destruct (save_tokens_result E _ w tmp rest Hmk Hdump)
        as (Hsave & Hfile & _).
      rewrite Hsave. intros [= <- <-]. eexists. split; [exact Hfile|].
      intros v Hv. apply dict_get_set_ne. congruence.
  - rewrite (save_tokens_no_name E _ w rest Hmk). intros [= <- <-].
    reflexivity.
Qed.

Lemma callback_frame_witness :
  exists store' : pydict,
    files (snd (google_callback Demo.E
                  "https://mcp.example/auth/google/callback?state=alice&code=first"
                  (Some "alice") Demo.two_users)) !! TOKEN_FILE
    = Some (Demo.dumps 0 (PDict store')) /\
    forall v : string,
      v <> "alice" ->
      dict_get store' v
      = dict_get [("alice", Demo.record (PStr "ya29.a0") (PStr "1//r-alice"));
                  ("bob", Demo.record (PStr "ya29.b0") (PStr "1//r-bob"))] v.
Proof.
  apply (callback_frame Demo.E
           "https://mcp.example/auth/google/callback?state=alice&code=first"
           (Some "alice") Demo.two_users _
           [("alice", Demo.record (PStr "ya29.a0") (PStr "1//r-alice"));
            ("bob", Demo.record (PStr "ya29.b0") (PStr "1//r-bob"))]
           (Ret (connected "alice")));
    reflexivity.
Defined.

(** ** Reading back, and the methods that need no credentials *)

Lemma load_tokens_reads_back (E : env) (fs : gmap string string)
  (tokens : pyval) (text : string) :
  fs !! TOKEN_FILE = Some (json_dumps E tokens) ->
  read_text (json_dumps E tokens) = Ret text ->
  json_loads E text = Ret tokens ->
  load_tokens E fs = Ret tokens.
Proof.
  intros Hf Hr Hj. unfold load_tokens. rewrite Hf, Hr. simpl. rewrite Hj.
  destruct tokens; reflexivity.
Qed.

(** After alice authorizes again, the store that is read back has her new
    access token, her old refresh token, and bob's record as it was. *)
Example callback_then_load :
  load_tokens Demo.E
    (files (snd (google_callback Demo.E
                   "https://mcp.example/auth/google/callback?state=alice&code=again"
                   (Some "alice") Demo.two_users)))
  = Ret Demo.store_two_again.
Proof. reflexivity. Qed.

(** A file cut short is text that the decoder rejects: the store is empty. *)
Example truncated_file_loads_empty :
  load_tokens Demo.E (files Demo.truncated) = Ret (PDict []).
Proof. reflexivity. Qed.

Lemma initialize_needs_no_credentials (E : env) (payload id_ : pyval)
  (w : world) :
  rpc_request payload = true ->
  py_get payload "method" PNone = Ret (PStr "initialize") ->
  py_get payload "id" PNone = Ret id_ ->
  mcp_handler E payload w
  = (Ret (ok (result_envelope id_
        (PDict
           [("serverInfo",
             PDict [("name", PStr "Multi-User Google Sheets MCP");
                    ("version", PStr "0.1.0")])]))), w).
Proof.
  intros Hreq Hm Hi.
  destruct (proj1 (rpc_request_user payload) Hreq) as [u Hu].
  rewrite (mcp_handler_head E payload _ id_ u w Hm Hi Hu).
  decide_names. reflexivity.
Qed.

(** * Further properties of the code *)

(** ** What a request can do to the world *)

Lemma pure_lift {A} (r : res A) : pure_step (M_lift r).
Proof. intros w w' out [= _ <-]. reflexivity. Qed.

Lemma pure_ret {A} (a : A) : pure_step (M_ret a).
Proof. intros w w' out [= _ <-]. reflexivity. Qed.

Lemma pure_load (E : env) : pure_step (M_load_tokens E).
Proof. intros w w' out [= _ <-]. reflexivity. Qed.

Lemma pure_bind {A B} (c : M A) (k : A -> M B) :
  pure_step c -> (forall a, pure_step (k a)) -> pure_step (M_bind c k).
Proof.
  intros Hc Hk w w' out. unfold M_bind.
  destruct (c w) as [[a|e] w1] eqn:Hcw; pose proof (Hc _ _ _ Hcw) as ->.
  - apply Hk.
  - intros [= _ <-]. reflexivity.
Qed.

Ltac pure_tac :=
  repeat first
    [ apply pure_lift
    | apply pure_ret
    | apply pure_load
    | apply pure_bind; [|intros ?]
    | match goal with
      | |- pure_step (if ?c then _ else _) => destruct c
      | |- pure_step (match ?r with Some _ => _ | None => _ end) => destruct r
      end ].

Lemma get_sheets_service_pure (E : env) (user_id : pyval) :
  pure_step (get_sheets_service E user_id).
Proof. unfold get_sheets_service. pure_tac. Qed.

Lemma one_of_pure {A} (c : M A) : pure_step c -> one_request_at_most c.
Proof.
  intros Hc w w' out H. rewrite (Hc _ _ _ H).
  split; [reflexivity|]. split; [reflexivity|]. left. reflexivity.
Qed.

Lemma one_bind_pure_l {A B} (c : M A) (k : A -> M B) :
  pure_step c -> (forall a, one_request_at_most (k a)) ->
  one_request_at_most (M_bind c k).
Proof.
  intros Hc Hk w w' out. unfold M_bind.
  destruct (c w) as [[a|e] w1] eqn:Hcw; pose proof (Hc _ _ _ Hcw) as ->.
  - apply Hk.
  - intros [= _ <-]. split; [reflexivity|]. split; [reflexivity|].
    left. reflexivity.
Qed.

Lemma one_bind_pure_r {A B} (c : M A) (k : A -> M B) :
  one_request_at_most c -> (forall a, pure_step (k a)) ->
  one_request_at_most (M_bind c k).
Proof.
  intros Hc Hk w w' out. unfold M_bind.
  destruct (c w) as [[a|e] w1] eqn:Hcw.
  - intros H. rewrite (Hk _ _ _ _ H). exact (Hc _ _ _ Hcw).
  - intros [= _ <-]. exact (Hc _ _ _ Hcw).
Qed.

Lemma run_remote_one (E : env) (c : remote_call) :
  one_request_at_most (run_remote E c).
Proof.
  intros w w' out [= _ <-]. split; [reflexivity|]. split; [reflexivity|].
  right. exists c. reflexivity.
Qed.

Ltac one_tac :=
  repeat first
    [ apply one_bind_pure_l; [solve [pure_tac | apply get_sheets_service_pure]
                             | intros ?]
    | apply one_bind_pure_r; [apply run_remote_one | intros ?; solve [pure_tac]]
    | match goal with
      | |- one_request_at_most (if ?c then _ else _) => destruct c
      | |- one_request_at_most (match ?r with Some _ => _ | None => _ end) =>
          destruct r
      end
    | apply one_of_pure; solve [pure_tac] ].

Lemma sheets_read_range_one (E : env) (user_id spreadsheet_id range_ : pyval) :
  one_request_at_most (sheets_read_range E user_id spreadsheet_id range_).
Proof. unfold sheets_read_range. one_tac. Qed.

Lemma sheets_write_range_one (E : env)
  (user_id spreadsheet_id range_ values : pyval) :
  one_request_at_most (sheets_write_range E user_id spreadsheet_id range_ values).
Proof. unfold sheets_write_range. one_tac. Qed.

Lemma sheets_append_row_one (E : env)
  (user_id spreadsheet_id range_ values : pyval) :
  one_request_at_most (sheets_append_row E user_id spreadsheet_id range_ values).
Proof. unfold sheets_append_row. one_tac. Qed.

Lemma tools_call_one (E : env) (payload id_ user_id : pyval) :
  one_request_at_most (tools_call E payload id_ user_id).
Proof.
  unfold tools_call.
  repeat (apply one_bind_pure_l; [apply pure_lift | intros ?]).
  repeat match goal with
         | |- one_request_at_most (if ?c then _ else _) => destruct c
         end;
    try (apply one_of_pure; apply pure_ret);
    repeat (apply one_bind_pure_l; [apply pure_lift | intros ?]);
    (apply one_bind_pure_r;
     [ first [ apply sheets_read_range_one | apply sheets_write_range_one
             | apply sheets_append_row_one ]
     | intros ?; pure_tac ]).
Qed.

Lemma mcp_handler_one (E : env) (payload : pyval) :
  one_request_at_most (mcp_handler E payload).
Proof.
  unfold mcp_handler.
  repeat (apply one_bind_pure_l; [apply pure_lift | intros ?]).
  repeat match goal with
         | |- one_request_at_most (if ?c then _ else _) => destruct c
         end;
    try (apply one_of_pure; first [apply pure_ret | apply pure_lift]).
  apply one_bind_pure_r; [apply tools_call_one | intros ?; pure_tac].
Qed.

(** X1: whatever the request and whatever the outcome (a response or an
    exception), the [/mcp] handler leaves every file as it was: it never
    writes, creates or removes the token file, so a token that the client
    library refreshes during a call is not stored. *)
Theorem mcp_handler_never_writes (E : env) (payload : pyval) (w : world) :
  files (snd (mcp_handler E payload w)) = files w /\
  tmp_names (snd (mcp_handler E payload w)) = tmp_names w.
Proof.
  destruct (mcp_handler E payload w) as [out w'] eqn:H.
  destruct (mcp_handler_one E payload w w' out H) as (Hf & Ht & _).
  split; assumption.
Qed.

(** X2: whatever the request and whatever the outcome, the [/mcp] handler
    executes no Sheets request or exactly one; nothing is retried and no
    second request follows the first. *)
Theorem mcp_handler_one_request (E : env) (payload : pyval) (w : world) :
  remote_log (snd (mcp_handler E payload w)) = remote_log w \/
  exists r : remote_call,
    remote_log (snd (mcp_handler E payload w)) = (remote_log w ++ [r])%list.
Proof.
  destruct (mcp_handler E payload w) as [out w'] eqn:H.
  destruct (mcp_handler_one E payload w w' out H) as (_ & _ & Hl).
  exact Hl.
Qed.

(** ** A tool call of a connected user *)

Lemma py_eq_strs (a b : string) : py_eq (PStr a) (PStr b) = String.eqb a b.
Proof. reflexivity. Qed.

(** With stored credentials and a client that can be built, a catalogued
    tool with its arguments executes its one request and answers from the
    result; a request that fails makes the call fail the same way. *)
Lemma tool_branches_stored (E : env) (id_ : pyval) (u tool : string)
  (args : pydict) (tok rtok : pyval) (c : remote_call) (w : world) :
  tool_request (user_credentials E tok rtok) tool args = Some c ->
  stored_credentials E (files w) u tok rtok ->
  build E (user_credentials E tok rtok) = Ret tt ->
  tool_branches E id_ (PStr u) (PStr tool) (PDict args) w
  = (match execute E c with
     | Raise e => Raise e
     | Ret result =>
         match tool_answer E id_ (PStr u) tool result with
         | Ret resp => Ret (Some resp)
         | Raise e => Raise e
         end
     end, log_call c w).
Proof.
  intros Hreq Hcreds Hbuild.
  pose proof (get_sheets_service_stored E u tok rtok w Hcreds Hbuild) as Hsvc.
  unfold tool_request in Hreq.
  destruct (dict_get args "spreadsheet_id") as [a1|] eqn:Ha1; [|discriminate].
  destruct (dict_get args "range") as [a2|] eqn:Ha2; [|discriminate].
  unfold tool_branches, tool_answer. rewrite !py_eq_strs.
  destruct (String.eqb tool "sheets.read_range") eqn:Ht1.
  { injection Hreq as <-.
    run_lift (py_getitem_field (PDict args) _ _ Ha1).
    run_lift (py_getitem_field (PDict args) _ _ Ha2).
    unfold sheets_read_range, M_bind at 1. unfold M_bind at 1.
    rewrite Hsvc. unfold M_bind, run_remote.
    destruct (execute E _) as [result|e]; [|reflexivity].
    unfold M_lift. destruct (py_get result "values" (PList [])) as [res|e];
      [|reflexivity].
    simpl res_bind. destruct (py_eq res (PStr "AUTH_REQUIRED")); reflexivity. }
  destruct (dict_get args "values") as [a3|] eqn:Ha3; [|discriminate].
  destruct (String.eqb tool "sheets.write_range") eqn:Ht2.
  { injection Hreq as <-.
    run_lift (py_getitem_field (PDict args) _ _ Ha1).
    run_lift (py_getitem_field (PDict args) _ _ Ha2).
    run_lift (py_getitem_field (PDict args) _ _ Ha3).
    unfold sheets_write_range, M_bind at 1. unfold M_bind at 1.
    rewrite Hsvc. unfold M_bind, run_remote.
    destruct (execute E _) as [result|e]; reflexivity. }
  destruct (String.eqb tool "sheets.append_row") eqn:Ht3; [|discriminate].
  injection Hreq as <-.
  run_lift (py_getitem_field (PDict args) _ _ Ha1).
  run_lift (py_getitem_field (PDict args) _ _ Ha2).
  run_lift (py_getitem_field (PDict args) _ _ Ha3).
  unfold sheets_append_row, M_bind at 1. unfold M_bind at 1.
  rewrite Hsvc. unfold M_bind, run_remote.
  destruct (execute E _) as [result|e]; reflexivity.
Qed.

Lemma mcp_handler_stored (E : env) (payload id_ : pyval) (u tool : string)
  (args : pydict) (tok rtok : pyval) (c : remote_call) (w : world) :
  get_user_id payload = Ret (PStr u) ->
  py_get payload "id" PNone = Ret id_ ->
  tools_call_request payload (PStr tool) (PDict args) ->
  tool_request (user_credentials E tok rtok) tool args = Some c ->
  stored_credentials E (files w) u tok rtok ->
  build E (user_credentials E tok rtok) = Ret tt ->
  mcp_handler E payload w
  = (match execute E c with
     | Raise e => Raise e
     | Ret result => tool_answer E id_ (PStr u) tool result
     end, log_call c w).
Proof.
  intros Hu Hi Hcall Hreq Hcreds Hbuild.
  rewrite (mcp_handler_tools_call E payload id_ (PStr u) _ _ w Hcall Hi Hu).
  rewrite (tool_branches_stored E id_ u tool args tok rtok c w Hreq Hcreds Hbuild).
  destruct (execute E c) as [result|e]; [|reflexivity].
  destruct (tool_answer E id_ (PStr u) tool result); reflexivity.
Qed.

(** X3: [sheets.read_range] for a connected user executes one [get] with
    the spreadsheet id and range of the call and returns the [values] of
    the result as the [json] content of a success envelope; a result without
    [values] (an empty range) gives the empty list.  The values must differ
    from the str [AUTH_REQUIRED], which the handler takes for the sentinel of
    a missing record. *)
Theorem read_range_returns_values (E : env) (payload id_ : pyval) (u : string)
  (args result : pydict) (spreadsheet_id range_ tok rtok values : pyval)
  (w : world) :
  get_user_id payload = Ret (PStr u) ->
  py_get payload "id" PNone = Ret id_ ->
  tools_call_request payload (PStr "sheets.read_range") (PDict args) ->
  dict_get args "spreadsheet_id" = Some spreadsheet_id ->
  dict_get args "range" = Some range_ ->
  stored_credentials E (files w) u tok rtok ->
  build E (user_credentials E tok rtok) = Ret tt ->
  execute E (values_get (user_credentials E tok rtok) spreadsheet_id range_)
  = Ret (PDict result) ->
  values = match dict_get result "values" with
           | Some v => v
           | None => PList []
           end ->
  values <> PStr "AUTH_REQUIRED" ->
  mcp_handler E payload w
  = (Ret (ok (result_envelope id_
        (PDict [("content",
                 PList [PDict [("type", PStr "json"); ("json", values)]])]))),
     log_call (values_get (user_credentials E tok rtok) spreadsheet_id range_)
       w).
Proof.
  intros Hu Hi Hcall Ha1 Ha2 Hcreds Hbuild Hexec Hvalues Hne.
  rewrite (mcp_handler_stored E payload id_ u "sheets.read_range" args tok rtok
             (values_get (user_credentials E tok rtok) spreadsheet_id range_) w
             Hu Hi Hcall); try assumption.
  - rewrite Hexec. unfold tool_answer. rewrite String.eqb_refl.
    simpl py_get. rewrite <- Hvalues. simpl res_bind.
    rewrite (py_eq_str_false _ _ Hne). reflexivity.
  - unfold tool_request. rewrite Ha1, Ha2, String.eqb_refl. reflexivity.
Qed.

Lemma read_range_returns_values_witness :
  mcp_handler Lab.E
    (Demo.request 11 "tools/call"
       [Demo.call "sheets.read_range"
          [("spreadsheet_id", PStr "S1"); ("range", PStr "Empty!A1")];
        Demo.as_user "bob"])
    Demo.two_users
  = (Ret (ok (result_envelope (PInt 11)
        (PDict [("content",
                 PList [PDict [("type", PStr "json"); ("json", PList [])]])]))),
     log_call
       (values_get (user_credentials Lab.E (PStr "ya29.b0") (PStr "1//r-bob"))
          (PStr "S1") (PStr "Empty!A1"))
       Demo.two_users).
Proof.
  apply (read_range_returns_values Lab.E _ (PInt 11) "bob"
           [("spreadsheet_id", PStr "S1"); ("range", PStr "Empty!A1")]
           [("range", PStr "Empty!A1")]
           (PStr "S1") (PStr "Empty!A1") (PStr "ya29.b0") (PStr "1//r-bob")
           (PList []) Demo.two_users);
    first [ reflexivity | discriminate
          | eexists; repeat split; reflexivity
          | eexists _, _; repeat split; reflexivity ].
Defined.

(** X4: [sheets.append_row] for a connected user executes one [append]
    with the spreadsheet id and range of the call, [valueInputOption="RAW"],
    [insertDataOption="INSERT_ROWS"] and a body whose [values] is the
    one-row list made of the given values, and returns the success envelope
    whatever the service answers. *)
Theorem append_row_appends (E : env) (payload id_ : pyval) (u : string)
  (args : pydict) (spreadsheet_id range_ values tok rtok r : pyval)
  (w : world) :
  get_user_id payload = Ret (PStr u) ->
  py_get payload "id" PNone = Ret id_ ->
  tools_call_request payload (PStr "sheets.append_row") (PDict args) ->
  dict_get args "spreadsheet_id" = Some spreadsheet_id ->
  dict_get args "range" = Some range_ ->
  dict_get args "values" = Some values ->
  stored_credentials E (files w) u tok rtok ->
  build E (user_credentials E tok rtok) = Ret tt ->
  execute E (values_append (user_credentials E tok rtok) spreadsheet_id range_
               "RAW" "INSERT_ROWS" (PDict [("values", PList [values])]))
  = Ret r ->
  mcp_handler E payload w
  = (Ret (ok (result_envelope id_ (text_content "➕ Row appended"))),
     log_call
       (values_append (user_credentials E tok rtok) spreadsheet_id range_
          "RAW" "INSERT_ROWS" (PDict [("values", PList [values])])) w).
Proof.
  intros Hu Hi Hcall Ha1 Ha2 Ha3 Hcreds Hbuild Hexec.
  rewrite (mcp_handler_stored E payload id_ u "sheets.append_row" args tok rtok
             (values_append (user_credentials E tok rtok) spreadsheet_id range_
                "RAW" "INSERT_ROWS" (PDict [("values", PList [values])])) w
             Hu Hi Hcall); try assumption.
  - rewrite Hexec. reflexivity.
  - unfold tool_request. rewrite Ha1, Ha2, Ha3. reflexivity.
Qed.

Lemma append_row_appends_witness :
  mcp_handler Demo.E
    (Demo.request 12 "tools/call"
       [Demo.call "sheets.append_row"
          [("spreadsheet_id", PStr "S1"); ("range", PStr "A1");
           ("values", PList [PStr "x"; PStr "y"])];
        Demo.as_user "alice"])
    Demo.two_users
  = (Ret (ok (result_envelope (PInt 12) (text_content "➕ Row appended"))),
     log_call
       (values_append
          (user_credentials Demo.E (PStr "ya29.a0") (PStr "1//r-alice"))
          (PStr "S1") (PStr "A1") "RAW" "INSERT_ROWS"
          (PDict [("values", PList [PList [PStr "x"; PStr "y"]])]))
       Demo.two_users).
Proof.
  apply (append_row_appends Demo.E _ (PInt 12) "alice"
           [("spreadsheet_id", PStr "S1"); ("range", PStr "A1");
            ("values", PList [PStr "x"; PStr "y"])]
           (PStr "S1") (PStr "A1") (PList [PStr "x"; PStr "y"])
           (PStr "ya29.a0") (PStr "1//r-alice") (PDict []) Demo.two_users);
    first [ reflexivity
          | eexists; repeat split; reflexivity
          | eexists _, _; repeat split; reflexivity ].
Defined.

(** X5: when the Sheets request of a tool call fails, the handler builds
    no error response: the exception of the request leaves the handler as it
    is, after that one request and with the token file untouched. *)
Theorem remote_failure_propagates (E : env) (payload id_ : pyval)
  (u tool : string) (args : pydict) (tok rtok : pyval) (c : remote_call)
  (e : exn) (w : world) :
  get_user_id payload = Ret (PStr u) ->
  py_get payload "id" PNone = Ret id_ ->
  tools_call_request payload (PStr tool) (PDict args) ->
  tool_request (user_credentials E tok rtok) tool args = Some c ->
  stored_credentials E (files w) u tok rtok ->
  build E (user_credentials E tok rtok) = Ret tt ->
  execute E c = Raise e ->
  mcp_handler E payload w = (Raise e, log_call c w).
Proof.
  intros Hu Hi Hcall Hreq Hcreds Hbuild Hexec.
  rewrite (mcp_handler_stored E payload id_ u tool args tok rtok c w
             Hu Hi Hcall Hreq Hcreds Hbuild).
  rewrite Hexec. reflexivity.
Qed.

Lemma remote_failure_propagates_witness :
  mcp_handler Lab.E
    (Demo.request 13 "tools/call"
       [Demo.call "sheets.write_range"
          [("spreadsheet_id", PStr "forbidden"); ("range", PStr "A1");
           ("values", PList [PList [PStr "x"]])];
        Demo.as_user "bob"])
    Demo.two_users
  = (Raise (LibraryError "HttpError 403"),
     log_call
       (values_update
          (user_credentials Lab.E (PStr "ya29.b0") (PStr "1//r-bob"))
          (PStr "forbidden") (PStr "A1") "RAW"
          (PDict [("values", PList [PList [PStr "x"]])]))
       Demo.two_users).
Proof.
  apply (remote_failure_propagates Lab.E _ (PInt 13) "bob" "sheets.write_range"
           [("spreadsheet_id", PStr "forbidden"); ("range", PStr "A1");
            ("values", PList [PList [PStr "x"]])]
           (PStr "ya29.b0") (PStr "1//r-bob"));
    first [ reflexivity
          | eexists; repeat split; reflexivity
          | eexists _, _; repeat split; reflexivity ].
Defined.

(** ** Credentials that cannot be used *)

(** When credential resolution raises, every catalogued tool that was given
    its arguments raises the same way, and nothing else happens. *)
Lemma tool_branches_service_raises (E : env) (id_ user_id : pyval)
  (tool : string) (args : pydict) (keys : list string) (e : exn) (w : world) :
  required_args tool = Some keys ->
  first_missing args keys = None ->
  get_sheets_service E user_id w = (Raise e, w) ->
  tool_branches E id_ user_id (PStr tool) (PDict args) w = (Raise e, w).
Proof.
  intros Hreq Hmiss Hsvc.
  destruct (required_args_cases tool keys Hreq)
    as [[-> ->]|[[-> ->]|[-> ->]]];
    unfold tool_branches; decide_names;
    simpl in Hmiss;
    destruct (dict_get args "spreadsheet_id") as [a1|] eqn:Ha1;
    try discriminate;
    destruct (dict_get args "range") as [a2|] eqn:Ha2; try discriminate;
    run_lift (py_getitem_field (PDict args) _ _ Ha1);
    run_lift (py_getitem_field (PDict args) _ _ Ha2).
  - unfold sheets_read_range.
    rewrite (M_bind_raise _ _ w w _ (M_bind_raise _ _ w w _ Hsvc)).
    reflexivity.
  - destruct (dict_get args "values") as [a3|] eqn:Ha3; try discriminate.
    run_lift (py_getitem_field (PDict args) _ _ Ha3).
    unfold sheets_write_range.
    rewrite (M_bind_raise _ _ w w _ (M_bind_raise _ _ w w _ Hsvc)).
    reflexivity.
  - destruct (dict_get args "values") as [a3|] eqn:Ha3; try discriminate.
    run_lift (py_getitem_field (PDict args) _ _ Ha3).
    unfold sheets_append_row.
    rewrite (M_bind_raise _ _ w w _ (M_bind_raise _ _ w w _ Hsvc)).
    reflexivity.
Qed.

Lemma get_sheets_service_build_raises (E : env) (u : string)
  (tok rtok : pyval) (e : exn) (w : world) :
  stored_credentials E (files w) u tok rtok ->
  build E (user_credentials E tok rtok) = Raise e ->
  get_sheets_service E (PStr u) w = (Raise e, w).
Proof.
  intros (store & record & Hload & Hrec & Htok & Hrtok) Hbuild.
  unfold get_sheets_service.
  rewrite (M_bind_run (M_load_tokens E) _ w w (PDict store))
    by (unfold M_load_tokens; rewrite Hload; reflexivity).
  rewrite M_bind_lift. simpl py_in. rewrite Hrec. cbv beta iota.
  change (negb true) with false. cbv iota.
  run_lift (py_getitem_field (PDict store) u _ Hrec).
  run_lift (py_getitem_field (PDict record) "token" _ Htok).
  rewrite M_bind_lift. cbv beta iota.
  run_lift (py_getitem_field (PDict record) "refresh_token" _ Hrtok).
  fold (user_credentials E tok rtok). rewrite M_bind_lift, Hbuild.
  reflexivity.
Qed.

Lemma get_sheets_service_key_missing (E : env) (u k : string)
  (store record : pydict) (w : world) :
  load_tokens E (files w) = Ret (PDict store) ->
  dict_get store u = Some (PDict record) ->
  first_missing record ["token"; "refresh_token"] = Some k ->
  get_sheets_service E (PStr u) w = (Raise (KeyError (PStr k)), w).
Proof.
  intros Hload Hrec Hmiss. unfold get_sheets_service.
  rewrite (M_bind_run (M_load_tokens E) _ w w (PDict store))
    by (unfold M_load_tokens; rewrite Hload; reflexivity).
  rewrite M_bind_lift. simpl py_in. rewrite Hrec. cbv beta iota.
  change (negb true) with false. cbv iota.
  run_lift (py_getitem_field (PDict store) u _ Hrec).
  simpl in Hmiss.
  destruct (dict_get record "token") as [tok|] eqn:Htok.
  - run_lift (py_getitem_field (PDict record) "token" _ Htok).
    rewrite M_bind_lift. cbv beta iota.
    destruct (dict_get record "refresh_token") as [rtok|] eqn:Hrtok;
      [discriminate|].
    injection Hmiss as <-.
    rewrite M_bind_lift, (py_getitem_missing _ _ Hrtok). reflexivity.
  - injection Hmiss as <-.
    rewrite M_bind_lift, (py_getitem_missing _ _ Htok). reflexivity.
Qed.

(** X6: when the Sheets client cannot be built from the stored
    credentials, a tool call that has its arguments raises the exception of
    [build]; no Sheets request is executed and the world is untouched. *)
Theorem build_failure_propagates (E : env) (payload id_ : pyval)
  (u tool : string) (args : pydict) (keys : list string) (tok rtok : pyval)
  (e : exn) (w : world) :
  get_user_id payload = Ret (PStr u) ->
  py_get payload "id" PNone = Ret id_ ->
  tools_call_request payload (PStr tool) (PDict args) ->
  required_args tool = Some keys ->
  first_missing args keys = None ->
  stored_credentials E (files w) u tok rtok ->
  build E (user_credentials E tok rtok) = Raise e ->
  mcp_handler E payload w = (Raise e, w).
Proof.
  intros Hu Hi Hcall Htool Hargs Hcreds Hbuild.
  rewrite (mcp_handler_tools_call E payload id_ (PStr u) _ _ w Hcall Hi Hu).
  rewrite (tool_branches_service_raises E id_ (PStr u) tool args keys e w
             Htool Hargs
             (get_sheets_service_build_raises E u tok rtok e w Hcreds Hbuild)).
  reflexivity.
Qed.

Lemma build_failure_propagates_witness :
  mcp_handler Lab.E
    (Demo.request 14 "tools/call"
       [Demo.call "sheets.read_range"
          [("spreadsheet_id", PStr "S1"); ("range", PStr "A1")];
        Demo.as_user "erin"])
    Lab.revoked
  = (Raise (LibraryError "RefreshError"), Lab.revoked).
Proof.
  apply (build_failure_propagates Lab.E _ (PInt 14) "erin" "sheets.read_range"
           [("spreadsheet_id", PStr "S1"); ("range", PStr "A1")]
           ["spreadsheet_id"; "range"] (PStr "revoked") (PStr "1//r-erin"));
    first [ reflexivity
          | eexists; repeat split; reflexivity
          | eexists _, _; repeat split; reflexivity ].
Defined.

(** X7: a stored record that is an object but lacks [token] or
    [refresh_token] is not treated as a missing record: a tool call of that
    user raises [KeyError] for the first key that is missing, instead of
    returning the authorization error; no Sheets request is executed. *)
Theorem incomplete_record_raises (E : env) (payload id_ : pyval)
  (u tool k : string) (args store record : pydict) (keys : list string)
  (w : world) :
  get_user_id payload = Ret (PStr u) ->
  py_get payload "id" PNone = Ret id_ ->
  tools_call_request payload (PStr tool) (PDict args) ->
  required_args tool = Some keys ->
  first_missing args keys = None ->
  load_tokens E (files w) = Ret (PDict store) ->
  dict_get store u = Some (PDict record) ->
  first_missing record ["token"; "refresh_token"] = Some k ->
  mcp_handler E payload w = (Raise (KeyError (PStr k)), w).
Proof.
  intros Hu Hi Hcall Htool Hargs Hload Hrec Hmiss.
  rewrite (mcp_handler_tools_call E payload id_ (PStr u) _ _ w Hcall Hi Hu).
  rewrite (tool_branches_service_raises E id_ (PStr u) tool args keys _ w
             Htool Hargs
             (get_sheets_service_key_missing E u k store record w
                Hload Hrec Hmiss)).
  reflexivity.
Qed.

Lemma incomplete_record_raises_witness :
  mcp_handler Lab.E
    (Demo.request 15 "tools/call"
       [Demo.call "sheets.read_range"
          [("spreadsheet_id", PStr "S1"); ("range", PStr "A1")];
        Demo.as_user "dave"])
    Lab.partial
  = (Raise (KeyError (PStr "refresh_token")), Lab.partial).
Proof.
  apply (incomplete_record_raises Lab.E _ (PInt 15) "dave" "sheets.read_range"
           "refresh_token"
           [("spreadsheet_id", PStr "S1"); ("range", PStr "A1")]
           [("dave", PDict [("token", PStr "ya29.d0")])]
           [("token", PStr "ya29.d0")] ["spreadsheet_id"; "range"]);
    first [ reflexivity | eexists; repeat split; reflexivity ].
Defined.

(** ** Methods and users *)

(** X8: [initialize] and [tools/list] never look at the credential store:
    for every world, also one whose token file cannot be read, they return
    their fixed result in a success envelope with the id of the request and
    leave the world untouched. *)
Theorem static_methods_ignore_store (E : env) (payload id_ : pyval)
  (method : string) (w : world) :
  rpc_request payload = true ->
  py_get payload "method" PNone = Ret (PStr method) ->
  py_get payload "id" PNone = Ret id_ ->
  method = "initialize" \/ method = "tools/list" ->
  mcp_handler E payload w
  = (Ret (ok (result_envelope id_
        (if String.eqb method "initialize" then
           PDict
             [("serverInfo",
               PDict [("name", PStr "Multi-User Google Sheets MCP");
                      ("version", PStr "0.1.0")])]
         else PDict [("tools", tools_catalog)]))), w).
Proof.
  intros Hreq Hm Hi Hmethod.
  destruct (proj1 (rpc_request_user payload) Hreq) as [u Hu].
  rewrite (mcp_handler_head E payload _ id_ u w Hm Hi Hu).
  destruct Hmethod as [-> | ->]; decide_names; reflexivity.
Qed.

Lemma static_methods_ignore_store_witness :
  load_tokens Demo.E (files Demo.undecodable) = Raise UnicodeDecodeError /\
  mcp_handler Demo.E (Demo.request 16 "tools/list" []) Demo.undecodable
  = (Ret (ok (result_envelope (PInt 16) (PDict [("tools", tools_catalog)]))),
     Demo.undecodable).
Proof.
  split; [reflexivity|].
  apply (static_methods_ignore_store Demo.E (Demo.request 16 "tools/list" [])
           (PInt 16) "tools/list" Demo.undecodable);
    first [ reflexivity | right; reflexivity ].
Defined.

Lemma get_sheets_service_load_raises (E : env) (user_id : pyval) (e : exn)
  (w : world) :
  load_tokens E (files w) = Raise e ->
  get_sheets_service E user_id w = (Raise e, w).
Proof.
  intros Hload. unfold get_sheets_service.
  apply M_bind_raise. unfold M_load_tokens. rewrite Hload. reflexivity.
Qed.

(** X9: while [load_tokens] raises (a token file that is no UTF-8, for
    one), every tool call that has its arguments raises the same exception,
    for every user, with or without a record: no authorization error is
    returned and no Sheets request is executed. *)
Theorem unreadable_store_blocks_tool_calls (E : env) (payload id_ user_id : pyval)
  (tool : string) (args : pydict) (keys : list string) (e : exn) (w : world) :
  get_user_id payload = Ret user_id ->
  py_get payload "id" PNone = Ret id_ ->
  tools_call_request payload (PStr tool) (PDict args) ->
  required_args tool = Some keys ->
  first_missing args keys = None ->
  load_tokens E (files w) = Raise e ->
  mcp_handler E payload w = (Raise e, w).
Proof.
  intros Hu Hi Hcall Htool Hargs Hload.
  rewrite (mcp_handler_tools_call E payload id_ user_id _ _ w Hcall Hi Hu).
  rewrite (tool_branches_service_raises E id_ user_id tool args keys e w
             Htool Hargs (get_sheets_service_load_raises E user_id e w Hload)).
  reflexivity.
Qed.

Lemma unreadable_store_blocks_tool_calls_witness :
  mcp_handler Demo.E
    (Demo.request 17 "tools/call"
       [Demo.call "sheets.read_range"
          [("spreadsheet_id", PStr "S1"); ("range", PStr "A1")];
        Demo.as_user "alice"])
    Demo.undecodable
  = (Raise UnicodeDecodeError, Demo.undecodable).
Proof.
  apply (unreadable_store_blocks_tool_calls Demo.E _ (PInt 17) (PStr "alice")
           "sheets.read_range"
           [("spreadsheet_id", PStr "S1"); ("range", PStr "A1")]
           ["spreadsheet_id"; "range"]);
    first [ reflexivity | eexists; repeat split; reflexivity ].
Defined.

Lemma tools_call_ext (E : env) (p1 p2 : pyval) :
  py_getitem p1 (PStr "params") = py_getitem p2 (PStr "params") ->
  tools_call E p1 = tools_call E p2.
Proof. intros H. unfold tools_call. rewrite H. reflexivity. Qed.

(** The handler reads four things from the request: the method, the id,
    the user and the [params] member. *)
Lemma mcp_handler_ext (E : env) (p1 p2 : pyval) :
  py_get p1 "method" PNone = py_get p2 "method" PNone ->
  py_get p1 "id" PNone = py_get p2 "id" PNone ->
  get_user_id p1 = get_user_id p2 ->
  py_getitem p1 (PStr "params") = py_getitem p2 (PStr "params") ->
  mcp_handler E p1 = mcp_handler E p2.
Proof.
  intros Hm Hi Hu Hp. unfold mcp_handler.
  rewrite Hm, Hi, Hu, (tools_call_ext E p1 p2 Hp). reflexivity.
Qed.

(** X10: a request without a [meta] member is handled exactly as the same
    request with [meta] set to [{"user_id": "default"}]: callers that send no
    user id all act as the one user [default] and share that user's
    record. *)
Theorem missing_meta_is_default_user (E : env) (d : pydict) (w : world) :
  dict_get d "meta" = None ->
  mcp_handler E (PDict d) w
  = mcp_handler E
      (PDict (dict_set d "meta" (PDict [("user_id", PStr "default")]))) w.
Proof.
  intros Hmeta.
  rewrite (mcp_handler_ext E (PDict d)
             (PDict (dict_set d "meta" (PDict [("user_id", PStr "default")]))));
    [reflexivity| | | |].
  - simpl. rewrite dict_get_set_ne by discriminate. reflexivity.
  - simpl. rewrite dict_get_set_ne by discriminate. reflexivity.
  - unfold get_user_id. simpl. rewrite Hmeta, dict_get_set_eq. reflexivity.
  - simpl. rewrite dict_get_set_ne by discriminate. reflexivity.
Qed.

Lemma missing_meta_is_default_user_witness :
  mcp_handler Demo.E
    (Demo.request 18 "tools/call"
       [Demo.call "sheets.read_range"
          [("spreadsheet_id", PStr "S1"); ("range", PStr "A1")]])
    Demo.two_users
  = mcp_handler Demo.E
      (Demo.request 18 "tools/call"
         [Demo.call "sheets.read_range"
            [("spreadsheet_id", PStr "S1"); ("range", PStr "A1")];
          Demo.as_user "default"])
      Demo.two_users.
Proof.
  apply (missing_meta_is_default_user Demo.E
           [("jsonrpc", PStr "2.0"); ("id", PInt 18);
            ("method", PStr "tools/call");
            Demo.call "sheets.read_range"
              [("spreadsheet_id", PStr "S1"); ("range", PStr "A1")]]
           Demo.two_users).
  reflexivity.
Defined.

(** ** The shape of a response *)

(** The three shapes of a response: a result, the authorization error,
    the catch-all. *)
Lemma shape_result (id_ result : pyval) :
  status_code (ok (result_envelope id_ result)) = 200 /\
  field (content (ok (result_envelope id_ result))) "result" = Some result /\
  field (content (ok (result_envelope id_ result))) "error" = None.
Proof. repeat split. Qed.

Lemma shape_auth_error (E : env) (id_ user_id : pyval) :
  status_code (ok (auth_error E id_ user_id)) = 200 /\
  field (content (ok (auth_error E id_ user_id))) "result" = None /\
  error_code (ok (auth_error E id_ user_id)) = Some (PInt 401).
Proof. repeat split. Qed.

Lemma tools_call_shape (E : env) (payload id_ user_id : pyval)
  (w w' : world) (resp : response) :
  tools_call E payload id_ user_id w = (Ret (Some resp), w') ->
  (exists result, resp = ok (result_envelope id_ result)) \/
  resp = ok (auth_error E id_ user_id).
Proof.
  intros H. unfold tools_call in H. inv_run;
    first [ discriminate
          | right; reflexivity
          | left; eexists; reflexivity ].
Qed.

(** X11: a response that the handler produces has one of three shapes.
    A success has status 200, a [result] and no [error].  The authorization
    error has no [result], error code 401, and is sent with status 200, not
    401.  The catch-all has no [result], error code -32601 and status 400,
    the only response with a status other than 200. *)
Theorem response_shapes (E : env) (payload : pyval) (w w' : world)
  (resp : response) :
  mcp_handler E payload w = (Ret resp, w') ->
  (status_code resp = 200 /\
   field (content resp) "result" <> None /\
   field (content resp) "error" = None) \/
  (status_code resp = 200 /\
   field (content resp) "result" = None /\
   error_code resp = Some (PInt 401)) \/
  (status_code resp = 400 /\
   field (content resp) "result" = None /\
   error_code resp = Some (PInt (-32601))).
Proof.
  intros H. unfold mcp_handler in H.
  apply M_bind_inv in H. destruct H as (method & w1 & _ & H). cbv beta in H.
  apply M_bind_inv in H. destruct H as (id_ & w2 & _ & H). cbv beta in H.
  apply M_bind_inv in H. destruct H as (u & w3 & _ & H). cbv beta in H.
  destruct (py_eq method (PStr "initialize"));
    [unfold M_ret in H; injection H as <- _; left;
     split; [reflexivity|split; [discriminate|reflexivity]]|].
  destruct (py_eq method (PStr "tools/list"));
    [unfold M_ret in H; injection H as <- _; left;
     split; [reflexivity|split; [discriminate|reflexivity]]|].
  destruct (py_eq method (PStr "tools/call"));
    [|not_found_inv H; right; right; repeat split].
  apply M_bind_inv in H. destruct H as (r & w4 & Hcall & H).
  destruct r as [resp'|].
  - unfold M_ret in H; injection H as <- _.
    destruct (tools_call_shape E payload id_ u w3 w4 resp' Hcall)
      as [[result ->] | ->].
    + left. split; [reflexivity|split; [discriminate|reflexivity]].
    + right. left. apply shape_auth_error.
  - not_found_inv H. right. right. repeat split.
Qed.

Lemma response_shapes_witness :
  status_code (ok (auth_error Demo.E (PInt 7) (PStr "carol"))) = 200 /\
  error_code (ok (auth_error Demo.E (PInt 7) (PStr "carol")))
  = Some (PInt 401).
Proof.
  destruct (response_shapes Demo.E
              (Demo.request 7 "tools/call"
                 [Demo.call "sheets.read_range"
                    [("spreadsheet_id", PStr "S1"); ("range", PStr "A1:B2")];
                  Demo.as_user "carol"])
              Demo.two_users Demo.two_users
              (ok (auth_error Demo.E (PInt 7) (PStr "carol"))) eq_refl)
    as [(_ & Hres & _) | [(Hs & _ & Hc) | (Hs & _)]].
  - exfalso. apply Hres. reflexivity.
  - split; assumption.
  - discriminate Hs.
Defined.

(** ** The catalog and the dispatcher *)

Lemma tool_branches_catalogued (E : env) (id_ user_id args : pyval)
  (tool : string) (keys : list string) (w w' : world)
  (r : option response) :
  required_args tool = Some keys ->
  tool_branches E id_ user_id (PStr tool) args w = (Ret r, w') ->
  exists resp, r = Some resp /\ error_code resp <> Some (PInt (-32601)).
Proof.
  intros Hreq H.
  destruct (required_args_cases tool keys Hreq)
    as [[-> _]|[[-> _]|[-> _]]];
    unfold tool_branches in H; revert H; decide_names; intros H;
    inv_run; eexists; (split; [reflexivity | discriminate]).
Qed.

(** Every advertised tool is one of the three that [tools/call] knows,
    with the keys that [tools/call] reads for it. *)
Lemma advertised_required (tool : string) (keys : list string) :
  In (tool, keys) advertised -> required_args tool = Some keys.
Proof.
  intros Hin. simpl in Hin.
  destruct Hin as [[= <- <-]|[[= <- <-]|[[= <- <-]|[]]]]; reflexivity.
Qed.

(** With all the keys of a catalogued tool present, the tool has its
    request. *)
Lemma tool_request_complete (service : Credentials) (tool : string)
  (args : pydict) (keys : list string) :
  required_args tool = Some keys ->
  first_missing args keys = None ->
  exists c : remote_call, tool_request service tool args = Some c.
Proof.
  intros Hreq Hmiss.
  destruct (required_args_cases tool keys Hreq)
    as [[-> ->]|[[-> ->]|[-> ->]]];
    unfold tool_request; simpl in Hmiss;
    destruct (dict_get args "spreadsheet_id") as [a1|]; try discriminate;
    destruct (dict_get args "range") as [a2|]; try discriminate;
    try (destruct (dict_get args "values") as [a3|]; try discriminate);
    eexists; reflexivity.
Qed.

(** X12: the catalog and the dispatcher agree.  For every tool that
    [tools/list] advertises, with the arguments its schema declares as
    required, and for a user with stored credentials whose client can be
    built: a [tools/call] that lacks one of the declared arguments raises
    [KeyError] for the first one missing and does nothing else, and a
    [tools/call] that carries all of them gets as far as its one Sheets
    request, which is executed and logged.  So [tools/call] reads no
    argument that the schema does not declare and skips none that it
    declares. *)
Theorem advertised_tools_are_dispatched (E : env) (tool : string)
  (keys : list string) (payload id_ : pyval) (u : string) (args : pydict)
  (tok rtok : pyval) (w : world) :
  In (tool, keys) advertised ->
  get_user_id payload = Ret (PStr u) ->
  py_get payload "id" PNone = Ret id_ ->
  tools_call_request payload (PStr tool) (PDict args) ->
  stored_credentials E (files w) u tok rtok ->
  build E (user_credentials E tok rtok) = Ret tt ->
  match first_missing args keys with
  | Some k => mcp_handler E payload w = (Raise (KeyError (PStr k)), w)
  | None =>
      exists c : remote_call,
        tool_request (user_credentials E tok rtok) tool args = Some c /\
        mcp_handler E payload w
        = (match execute E c with
           | Raise e => Raise e
           | Ret result => tool_answer E id_ (PStr u) tool result
           end, log_call c w)
  end.
Proof.
  intros Hin Hu Hi Hcall Hcreds Hbuild.
  pose proof (advertised_required tool keys Hin) as Hreq.
  destruct (first_missing args keys) as [k|] eqn:Hmiss.
  - rewrite (mcp_handler_tools_call E payload id_ (PStr u) _ _ w Hcall Hi Hu).
    rewrite (tool_branches_missing E id_ (PStr u) tool args keys k w Hreq Hmiss).
    reflexivity.
  - destruct (tool_request_complete (user_credentials E tok rtok) tool args
                keys Hreq Hmiss) as [c Hc].
    exists c. split; [exact Hc|].
    exact (mcp_handler_stored E payload id_ u tool args tok rtok c w
             Hu Hi Hcall Hc Hcreds Hbuild).
Qed.

Lemma advertised_tools_are_dispatched_witness :
  mcp_handler Demo.E
    (Demo.request 5 "tools/call"
       [Demo.call "sheets.append_row"
          [("spreadsheet_id", PStr "S1"); ("values", PList [PStr "x"])];
        Demo.as_user "bob"])
    Demo.two_users
  = (Raise (KeyError (PStr "range")), Demo.two_users).
Proof.
  refine (advertised_tools_are_dispatched Demo.E "sheets.append_row"
            ["spreadsheet_id"; "range"; "values"]
            (Demo.request 5 "tools/call"
               [Demo.call "sheets.append_row"
                  [("spreadsheet_id", PStr "S1"); ("values", PList [PStr "x"])];
                Demo.as_user "bob"])
            (PInt 5) "bob"
            [("spreadsheet_id", PStr "S1"); ("values", PList [PStr "x"])]
            (PStr "ya29.b0") (PStr "1//r-bob") Demo.two_users
            _ eq_refl eq_refl _ _ eq_refl).
  - right. right. left. reflexivity.
  - eexists. repeat split; reflexivity.
  - eexists _, _. repeat split; reflexivity.
Defined.

(** ** More on the callback *)

(** A callback whose steps all succeed stores the new record of its user
    in a mapping that is otherwise the loaded one. *)
Lemma google_callback_stores (E : env) (url : string) (state : option string)
  (w : world) (store : pydict) (credentials : oauth_credentials)
  (existing : pyval) (tmp : string) (rest : list string) :
  load_tokens E (files w) = Ret (PDict store) ->
  fetch_token E (get_oauth_flow E) url = Ret credentials ->
  py_get (match dict_get store (state_user state) with
          | Some x => x
          | None => PDict []
          end) "refresh_token" PNone = Ret existing ->
  mkstemp (tmp_names w) (files w) = (Some tmp, rest) ->
  json_dump_raises E
    (PDict (dict_set store (state_user state)
              (new_record credentials existing))) = None ->
  exists w' : world,
    google_callback E url state w = (Ret (connected (state_user state)), w') /\
    files w' !! TOKEN_FILE
    = Some (json_dumps E
              (PDict (dict_set store (state_user state)
                        (new_record credentials existing)))) /\
    (forall name : string,
        name <> TOKEN_FILE -> files w' !! name = files w !! name).
Proof.
  intros Hload Hfetch Hex Hmk Hdump.
  destruct (save_tokens_result E
              (PDict (dict_set store (state_user state)
                        (new_record credentials existing))) w tmp rest Hmk
              Hdump)
    as (Hsave & Hfile & Hother).
  eexists. split; [|split].
  - rewrite (google_callback_steps E url state w store Hload).
    rewrite Hfetch, Hex, Hsave. reflexivity.
  - exact Hfile.
  - exact Hother.
Qed.

(** X13: when the provider answers with a refresh token (any value that
    is not empty), the callback (given a free temporary name and a mapping
    that [json.dump] can write) stores that one: a refresh token stored
    earlier for the user is replaced, and a user without a record gets a
    record with it. *)
Theorem callback_replaces_refresh_token (E : env) (url : string)
  (state : option string) (w : world) (store : pydict) (t r : pyval)
  (tmp : string) (rest : list string) :
  load_tokens E (files w) = Ret (PDict store) ->
  match dict_get store (state_user state) with
  | Some (PDict _) | None => True
  | Some _ => False
  end ->
  fetch_token E (get_oauth_flow E) url
  = Ret {| token := t; refresh_token := r |} ->
  truthy r = true ->
  mkstemp (tmp_names w) (files w) = (Some tmp, rest) ->
  json_dump_raises E
    (PDict (dict_set store (state_user state)
              (PDict [("token", t); ("refresh_token", r)]))) = None ->
  exists (w' : world) (store' : pydict),
    google_callback E url state w = (Ret (connected (state_user state)), w') /\
    files w' !! TOKEN_FILE = Some (json_dumps E (PDict store')) /\
    dict_get store' (state_user state)
    = Some (PDict [("token", t); ("refresh_token", r)]).
Proof.
  intros Hload Hrec Hfetch Hr Hmk Hdump.
  assert (Hnew : forall existing,
             new_record {| token := t; refresh_token := r |} existing
             = PDict [("token", t); ("refresh_token", r)]).
  { intros existing. unfold new_record, py_or. simpl. rewrite Hr.
    reflexivity. }
  assert (Hex : exists existing,
             py_get (match dict_get store (state_user state) with
                     | Some x => x
                     | None => PDict []
                     end) "refresh_token" PNone = Ret existing).
  { destruct (dict_get store (state_user state)) as [[| | | | | |rec]|];
      try contradiction; eexists; reflexivity. }
  destruct Hex as [existing Hex].
  rewrite <- (Hnew existing) in Hdump.
  destruct (google_callback_stores E url state w store _ existing tmp rest
              Hload Hfetch Hex Hmk Hdump) as (w' & Hrun & Hfile & _).
  exists w'. eexists. split; [exact Hrun|]. split; [exact Hfile|].
  rewrite dict_get_set_eq, Hnew. reflexivity.
Qed.

Lemma callback_replaces_refresh_token_witness :
  exists (w' : world) (store' : pydict),
    google_callback Demo.E
      "https://mcp.example/auth/google/callback?state=alice&code=first"
      (Some "alice") Demo.two_users
    = (Ret (connected "alice"), w') /\
    files w' !! TOKEN_FILE = Some (Demo.dumps 0 (PDict store')) /\
    dict_get store' "alice"
    = Some (PDict [("token", PStr "ya29.a1");
                   ("refresh_token", PStr "1//r-new")]).
Proof.
  apply (callback_replaces_refresh_token Demo.E
           "https://mcp.example/auth/google/callback?state=alice&code=first"
           (Some "alice") Demo.two_users
           [("alice", Demo.record (PStr "ya29.a0") (PStr "1//r-alice"));
            ("bob", Demo.record (PStr "ya29.b0") (PStr "1//r-bob"))]
           (PStr "ya29.a1") (PStr "1//r-new") "tmpk3x9_q2a" ["0zzzzzzz"]);
    first [ reflexivity | exact I ].
Defined.

(** X14: when a user without a record authorizes and the provider sends
    no refresh token, the callback (given a free temporary name and a
    mapping that [json.dump] can write) still answers that the user is
    connected and stores a record whose [refresh_token] is [None] ([null]
    in the file). *)
Theorem callback_first_time_without_refresh_token (E : env) (url : string)
  (state : option string) (w : world) (store : pydict) (t r : pyval)
  (tmp : string) (rest : list string) :
  load_tokens E (files w) = Ret (PDict store) ->
  dict_get store (state_user state) = None ->
  fetch_token E (get_oauth_flow E) url
  = Ret {| token := t; refresh_token := r |} ->
  truthy r = false ->
  mkstemp (tmp_names w) (files w) = (Some tmp, rest) ->
  json_dump_raises E
    (PDict (dict_set store (state_user state)
              (PDict [("token", t); ("refresh_token", PNone)]))) = None ->
  exists (w' : world) (store' : pydict),
    google_callback E url state w = (Ret (connected (state_user state)), w') /\
    files w' !! TOKEN_FILE = Some (json_dumps E (PDict store')) /\
    dict_get store' (state_user state)
    = Some (PDict [("token", t); ("refresh_token", PNone)]).
Proof.
  intros Hload Hnone Hfetch Hr Hmk Hdump.
  assert (Hnew : new_record {| token := t; refresh_token := r |} PNone
                 = PDict [("token", t); ("refresh_token", PNone)]).
  { unfold new_record, py_or. simpl. rewrite Hr. reflexivity. }
  assert (Hex : py_get (match dict_get store (state_user state) with
                        | Some x => x
                        | None => PDict []
                        end) "refresh_token" PNone = Ret PNone)
    by (rewrite Hnone; reflexivity).
  rewrite <- Hnew in Hdump.
  destruct (google_callback_stores E url state w store _ PNone tmp rest
              Hload Hfetch Hex Hmk Hdump) as (w' & Hrun & Hfile & _).
  exists w'. eexists. split; [exact Hrun|]. split; [exact Hfile|].
  rewrite dict_get_set_eq, Hnew. reflexivity.
Qed.

Lemma callback_first_time_without_refresh_token_witness :
  exists (w' : world) (store' : pydict),
    google_callback Demo.E
      "https://mcp.example/auth/google/callback?state=carol&code=again"
      (Some "carol") Demo.two_users
    = (Ret (connected "carol"), w') /\
    files w' !! TOKEN_FILE = Some (Demo.dumps 0 (PDict store')) /\
    dict_get store' "carol"
    = Some (PDict [("token", PStr "ya29.a2"); ("refresh_token", PNone)]).
Proof.
  apply (callback_first_time_without_refresh_token Demo.E
           "https://mcp.example/auth/google/callback?state=carol&code=again"
           (Some "carol") Demo.two_users
           [("alice", Demo.record (PStr "ya29.a0") (PStr "1//r-alice"));
            ("bob", Demo.record (PStr "ya29.b0") (PStr "1//r-bob"))]
           (PStr "ya29.a2") PNone "tmpk3x9_q2a" ["0zzzzzzz"]);
    reflexivity.
Defined.

(** X15: when the token file holds text that [json.loads] rejects, a
    callback whose steps succeed (the code is exchanged, a temporary name is
    free and [json.dump] can write the new mapping) replaces it by a file
    with the single record of its own user: whatever the damaged file held
    is gone. *)
Theorem callback_overwrites_malformed_store (E : env) (url : string)
  (state : option string) (w : world) (bytes text : string)
  (credentials : oauth_credentials) (tmp : string) (rest : list string) :
  files w !! TOKEN_FILE = Some bytes ->
  read_text bytes = Ret text ->
  json_loads E text = Raise JSONDecodeError ->
  fetch_token E (get_oauth_flow E) url = Ret credentials ->
  mkstemp (tmp_names w) (files w) = (Some tmp, rest) ->
  json_dump_raises E
    (PDict [(state_user state, new_record credentials PNone)]) = None ->
  exists w' : world,
    google_callback E url state w = (Ret (connected (state_user state)), w') /\
    files w' !! TOKEN_FILE
    = Some (json_dumps E
              (PDict [(state_user state, new_record credentials PNone)])).
Proof.
  intros Hf Hr Hj Hfetch Hmk Hdump.
  pose proof (load_tokens_malformed E (files w) bytes text Hf Hr Hj) as Hload.
  destruct (google_callback_stores E url state w [] credentials PNone tmp rest
              Hload Hfetch eq_refl Hmk Hdump) as (w' & Hrun & Hfile & _).
  exists w'. split; [exact Hrun | exact Hfile].
Qed.

Lemma callback_overwrites_malformed_store_witness :
  exists w' : world,
    google_callback Lab.E
      "https://mcp.example/auth/google/callback?state=alice&code=first"
      (Some "alice") Demo.truncated
    = (Ret (connected "alice"), w') /\
    files w' !! TOKEN_FILE = Some (Demo.dumps 0 Lab.store_first).
Proof.
  apply (callback_overwrites_malformed_store Lab.E
           "https://mcp.example/auth/google/callback?state=alice&code=first"
           (Some "alice") Demo.truncated "{" "{"
           {| token := PStr "ya29.a1"; refresh_token := PStr "1//r-new" |}
           "tmpk3x9_q2a" ["0zzzzzzz"]);
    reflexivity.
Defined.

(** ** More on saving *)

(** X16: saving and loading compose to the identity whenever the codec
    does: if [json.loads] gives back [tokens] from the text that [json.dump]
    writes for it, then [load_tokens] after a [save_tokens] that returned
    gives [tokens], whatever the token file held before. *)
Theorem save_then_load (E : env) (tokens : pyval) (w w' : world)
  (text : string) :
  save_tokens E tokens w = (Ret tt, w') ->
  read_text (json_dumps E tokens) = Ret text ->
  json_loads E text = Ret tokens ->
  load_tokens E (files w') = Ret tokens.
Proof.
  intros Hsave Hr Hj.
  destruct (save_tokens_returned E tokens w w' Hsave)
    as (tmp & rest & Hmk & Hdump).
  destruct (save_tokens_result E tokens w tmp rest Hmk Hdump)
    as (Hrun & Hfile & _).
  rewrite Hrun in Hsave. injection Hsave as <-.
  exact (load_tokens_reads_back E _ tokens text Hfile Hr Hj).
Qed.

Lemma save_then_load_witness :
  load_tokens Demo.E
    (files (snd (save_tokens Demo.E Demo.store_alice Demo.undecodable)))
  = Ret Demo.store_alice.
Proof.
  apply (save_then_load Demo.E Demo.store_alice Demo.undecodable _
           (Demo.dumps 0 Demo.store_alice));
    reflexivity.
Defined.

(** X17: a [save_tokens] that returns changes the token file and nothing
    else: every other file is as before and the temporary file is gone. *)
Theorem save_tokens_touches_only_token_file (E : env) (tokens : pyval)
  (w w' : world) (name : string) :
  save_tokens E tokens w = (Ret tt, w') ->
  name <> TOKEN_FILE ->
  files w' !! name = files w !! name.
Proof.
  intros Hsave Hname.
  destruct (save_tokens_returned E tokens w w' Hsave)
    as (tmp & rest & Hmk & Hdump).
  destruct (save_tokens_result E tokens w tmp rest Hmk Hdump)
    as (Hrun & _ & Hother).
  rewrite Hrun in Hsave. injection Hsave as <-. apply Hother. exact Hname.
Qed.

Lemma save_tokens_touches_only_token_file_witness :
  files (snd (save_tokens Demo.E Demo.store_alice Lab.littered))
    !! "tmp0zzzzzzz"
  = None /\
  files (snd (save_tokens Demo.E Demo.store_alice Lab.littered))
    !! "tmpk3x9_q2a"
  = Some "{".
Proof.
  split;
    refine (save_tokens_touches_only_token_file Demo.E Demo.store_alice
              Lab.littered _ _ eq_refl _);
    discriminate.
Defined.

Lemma firstn_map_append (tmp : string) (cs : list ascii) (k : nat)
  (tail : list fs_op) :
  (k <= List.length cs)%nat ->
  firstn k (map (Append tmp) cs ++ tail)%list = map (Append tmp) (firstn k cs).
Proof.
  intros Hk. rewrite firstn_app, List.length_map.
  replace (k - List.length cs)%nat with 0%nat by lia.
  rewrite firstn_O, app_nil_r. apply firstn_map.
Qed.

(** X18: a save that is cut off after the temporary file was created and
    [k] bytes were written leaves that file behind, holding the first [k]
    bytes of the text; the code never removes it ([delete=False], no
    clean-up), so the partial text is on disk, under the temporary name
    only. *)
Theorem interrupted_save_leaves_temporary_file (E : env) (tokens : pyval)
  (fs : gmap string string) (tmp : string) (k : nat) :
  (k <= String.length (json_dumps E tokens))%nat ->
  fs_run (firstn (S k) (save_script E tmp tokens)) fs !! tmp
  = Some (string_of_list_ascii
            (firstn k (list_ascii_of_string (json_dumps E tokens)))).
Proof.
  intros Hk. unfold save_script. rewrite firstn_cons.
  rewrite firstn_map_append.
  - change (Create tmp :: ?l) with ([Create tmp] ++ l)%list.
    rewrite fs_run_app.
    rewrite (fs_run_appends tmp _ _ EmptyString); [reflexivity|].
    unfold fs_run. simpl. apply lookup_insert_eq.
  - revert k Hk. generalize (json_dumps E tokens) as s.
    induction s as [|a s IH]; intros k Hk; simpl in *; [exact Hk|].
    destruct k as [|k]; [lia|]. apply le_n_S, (IH k). lia.
Qed.

Lemma interrupted_save_leaves_temporary_file_witness :
  fs_run (firstn 4 (save_script Demo.E "tmpk3x9_q2a" Demo.store_alice))
    (files Demo.two_users) !! "tmpk3x9_q2a"
  = Some (string_of_list_ascii
            (firstn 3 (list_ascii_of_string (Demo.dumps 0 Demo.store_alice)))).
Proof.
  apply (interrupted_save_leaves_temporary_file Demo.E Demo.store_alice
           (files Demo.two_users) "tmpk3x9_q2a" 3).
  vm_compute. lia.
Defined.

(** X19: authorizing connects.  After a callback that returned, if the
    codec reads back the text it wrote, the store holds for the user of the
    callback a record with both keys, the access token of the provider and
    the refresh token chosen by [or]; a later tool call of that user
    therefore finds its credentials. *)
Theorem callback_connects (E : env) (url : string) (state : option string)
  (w w' : world) (store : pydict) (credentials : oauth_credentials)
  (existing out : pyval) (text : string) :
  load_tokens E (files w) = Ret (PDict store) ->
  fetch_token E (get_oauth_flow E) url = Ret credentials ->
  py_get (match dict_get store (state_user state) with
          | Some x => x
          | None => PDict []
          end) "refresh_token" PNone = Ret existing ->
  google_callback E url state w = (Ret out, w') ->
  read_text (json_dumps E
               (PDict (dict_set store (state_user state)
                         (new_record credentials existing)))) = Ret text ->
  json_loads E text
  = Ret (PDict (dict_set store (state_user state)
                  (new_record credentials existing))) ->
  stored_credentials E (files w') (state_user state) (token credentials)
    (py_or (refresh_token credentials) existing).
Proof.
  intros Hload Hfetch Hex Hrun Hr Hj.
  rewrite (google_callback_steps E url state w store Hload) in Hrun.
  rewrite Hfetch, Hex in Hrun.
  destruct (save_tokens E _ w) as [[[]|e] w1] eqn:Hsave; [|discriminate].
  injection Hrun as _ <-.
  exists (dict_set store (state_user state) (new_record credentials existing)).
  eexists. split; [|split; [apply dict_get_set_eq | split; reflexivity]].
  destruct (save_tokens_returned E _ w w1 Hsave)
    as (tmp & rest & Hmk & Hdump).
  destruct (save_tokens_result E
              (PDict (dict_set store (state_user state)
                        (new_record credentials existing))) w tmp rest Hmk
              Hdump)
    as (Hs & Hfile & _).
  rewrite Hs in Hsave. injection Hsave as <-.
  exact (load_tokens_reads_back E _ _ text Hfile Hr Hj).
Qed.

Lemma callback_connects_witness :
  stored_credentials Demo.E
    (files (snd (google_callback Demo.E
                   "https://mcp.example/auth/google/callback?state=alice&code=again"
                   (Some "alice") Demo.two_users)))
    "alice" (PStr "ya29.a2") (PStr "1//r-alice").
Proof.
  apply (callback_connects Demo.E
           "https://mcp.example/auth/google/callback?state=alice&code=again"
           (Some "alice") Demo.two_users _
           [("alice", Demo.record (PStr "ya29.a0") (PStr "1//r-alice"));
            ("bob", Demo.record (PStr "ya29.b0") (PStr "1//r-bob"))]
           {| token := PStr "ya29.a2"; refresh_token := PNone |}
           (PStr "1//r-alice") (connected "alice")
           (Demo.dumps 0 Demo.store_two_again));
    reflexivity.
Defined.

(** X20: [load_tokens] does not check that the document is an object.
    When the token file holds well-formed JSON of another kind (a list, a
    number, a str), [load_tokens] returns that value, and the callback,
    having exchanged the authorization code, raises [AttributeError] at
    [tokens.get] and leaves the world untouched: no user can connect until
    the file is repaired. *)
Theorem callback_rejects_non_mapping_store (E : env) (url : string)
  (state : option string) (w : world) (bytes text : string) (v : pyval)
  (credentials : oauth_credentials) :
  files w !! TOKEN_FILE = Some bytes ->
  read_text bytes = Ret text ->
  json_loads E text = Ret v ->
  match v with PDict _ => False | _ => True end ->
  fetch_token E (get_oauth_flow E) url = Ret credentials ->
  load_tokens E (files w) = Ret v /\
  google_callback E url state w = (Raise AttributeError, w).
Proof.
  intros Hf Hr Hj Hv Hfetch.
  assert (Hload : load_tokens E (files w) = Ret v).
  { unfold load_tokens. rewrite Hf, Hr. simpl. rewrite Hj. reflexivity. }
  split; [exact Hload|].
  unfold google_callback. run_lift Hfetch.
  rewrite (M_bind_run (M_load_tokens E) _ w w v)
    by (unfold M_load_tokens; rewrite Hload; reflexivity).
  rewrite M_bind_lift.
  destruct v; try reflexivity. contradiction.
Qed.

Lemma callback_rejects_non_mapping_store_witness :
  load_tokens Lab.E (files Lab.listed) = Ret (PList []) /\
  google_callback Lab.E
    "https://mcp.example/auth/google/callback?state=alice&code=first"
    (Some "alice") Lab.listed
  = (Raise AttributeError, Lab.listed).
Proof.
  apply (callback_rejects_non_mapping_store Lab.E
           "https://mcp.example/auth/google/callback?state=alice&code=first"
           (Some "alice") Lab.listed "[]" "[]" (PList [])
           {| token := PStr "ya29.a1"; refresh_token := PStr "1//r-new" |});
    first [ reflexivity | exact I ].
Defined.
